(** * ChillMCP: the agent state manager and the break-tool executor

    A shallow embedding of [src/main.py]: the two gauges of
    [AgentStateManager], its locked operations, the two timer bodies, the
    penalty gate, [format_response] and [execute_break_tool].

    Python integers are unbounded, so gauges and arguments are [Z].
    Exceptions are values of [exn]; the code that may raise runs in a small
    state-and-exception monad [M].  The module [random] is modelled by an
    entropy tape read left to right.  Two limits of the interpreter are part
    of the model, since the code can reach them: an integer of more than 4300
    digits is not rendered ([ValueError]), and a delay that no float holds is
    not slept ([OverflowError]).

    The program runs on one asyncio event loop.  Awaiting one of its own
    coroutines runs it at once, and the lock is free whenever it is asked
    for, since no locked block awaits anything: a task is suspended in
    [asyncio.sleep] and nowhere else.  What the other tasks do meanwhile is a
    list of locked operations given to the sleep. *)

From Stdlib Require Import ZArith List String Ascii Bool Lia.
From Stdlib Require Import DecimalString.
From Stdlib Require DecimalZ DecimalPos.
Import ListNotations.

Local Open Scope string_scope.
Local Open Scope list_scope.
Local Open Scope Z_scope.

(** ** Exceptions, entropy and the world *)

(** The exceptions the modelled code can raise: [random.randint] on an empty
    range and the rendering of an integer of too many digits raise
    [ValueError], [random.choice] on an empty sequence raises [IndexError],
    [asyncio.sleep] on a delay no float can hold raises [OverflowError]. *)
Inductive exn : Type :=
| ValueError
| IndexError
| OverflowError.

(** The source of randomness: cell [n] of the tape feeds the [n]-th draw. *)
Record rng : Type := mkRng {
  raw : nat -> Z;
  pos : nat
}.

(** What a task does that can be observed from outside it: sleeping, writing
    a line to stderr, and running a locked operation of the state manager. *)
Inductive event : Type :=
| EvSleep (seconds : Z)
| EvStderr (line : string)
| EvReduceStress (reduction : Z)
| EvAlertRoll (raised : bool)
| EvGetState (stress alert : Z).

(** The gauges and the configuration held by an [AgentStateManager].  The
    asyncio lock is not a field: a locked block has no await inside, so it
    runs as one step. *)
Record agent : Type := mkAgent {
  stress_level : Z;
  boss_alert_level : Z;
  boss_alertness : Z;
  boss_alertness_cooldown : Z
}.

Record world : Type := mkWorld {
  st : agent;
  gen : rng;
  trace : list event
}.

Definition set_st (a : agent) (w : world) : world :=
  mkWorld a (gen w) (trace w).

Definition set_stress (v : Z) (a : agent) : agent :=
  mkAgent v (boss_alert_level a) (boss_alertness a) (boss_alertness_cooldown a).

Definition set_alert (v : Z) (a : agent) : agent :=
  mkAgent (stress_level a) v (boss_alertness a) (boss_alertness_cooldown a).

(** ** The monad *)

Definition M (A : Type) : Type := world -> (exn + A) * world.

Definition ret {A} (x : A) : M A := fun w => (inr x, w).

Definition bind {A B} (m : M A) (k : A -> M B) : M B :=
  fun w =>
    match m w with
    | (inl e, w') => (inl e, w')
    | (inr x, w') => k x w'
    end.

Definition raise {A} (e : exn) : M A := fun w => (inl e, w).

Notation "x <- m ;; k" := (bind m (fun x => k))
  (at level 61, m at next level, right associativity).
Notation "m ;;; k" := (bind m (fun _ => k))
  (at level 61, right associativity).

Definition emit (e : event) : M unit :=
  fun w => (inr tt, mkWorld (st w) (gen w) (trace w ++ [e])).

Definition get_agent : M agent := fun w => (inr (st w), w).

Definition put_agent (a : agent) : M unit := fun w => (inr tt, set_st a w).

(** One cell of the tape. *)
Definition next_raw : M Z :=
  fun w =>
    let g := gen w in
    (inr (raw g (pos g)), mkWorld (st w) (mkRng (raw g) (S (pos g))) (trace w)).

(** [random.randint a b]: an integer of [a..b], [ValueError] when the range is
    empty.  Nothing is read from the tape when it raises. *)
Definition randint (a b : Z) : M Z :=
  if b <? a then raise ValueError
  else n <- next_raw ;; ret (a + n mod (b - a + 1)).

(** [random.choice seq]: an element of [seq], [IndexError] when it is
    empty. *)
Definition choice (seq : list string) : M string :=
  match seq with
  | [] => raise IndexError
  | x :: _ =>
      n <- next_raw ;;
      ret (List.nth (Z.to_nat (n mod Z.of_nat (List.length seq))) seq x)
  end.

(** [print(..., file=sys.stderr)]. *)
Definition print_stderr (line : string) : M unit := emit (EvStderr line).

(** A computation that has no effect but may raise, and its use in [M]. *)
Definition and_then {A B} (r : exn + A) (k : A -> exn + B) : exn + B :=
  match r with
  | inl e => inl e
  | inr x => k x
  end.

Definition lift {A} (r : exn + A) : M A := fun w => (r, w).

(** The decimal writing of an integer, and the number of its digits, the
    sign left out. *)
Definition decimal (n : Z) : string := NilZero.string_of_int (Z.to_int n).

Definition digits (n : Z) : Z :=
  Z.of_nat (String.length (decimal (Z.abs n))).

(** [sys.int_info.default_max_str_digits]: the limit CPython starts with. *)
Definition int_max_str_digits : Z := 4300.

(** [str(n)] for a Python integer, which is also how an f-string renders
    [{n}]: [ValueError] when [n] has more digits than the limit. *)
Definition str (n : Z) : exn + string :=
  if digits n <=? int_max_str_digits then inr (decimal n)
  else inl ValueError.

(** The least integer that no float holds: converting an integer to a float
    rounds to 53 bits, ties to even, and raises [OverflowError] from
    [2^1024 - 2^970] on. *)
Definition float_overflow : Z := 2 ^ 1024 - 2 ^ 970.

(** ** [class AgentStateManager] *)

Module AgentStateManager.

(** [__init__]: the arguments are stored as they come; nothing is checked
    here (the command line is checked by [parse_arguments]). *)
Definition __init__ (alertness cooldown : Z) : agent :=
  {| stress_level := 50;
     boss_alert_level := 0;
     boss_alertness := alertness;
     boss_alertness_cooldown := cooldown |}.

(** The locked block of one round of [_auto_increase_stress]. *)
Definition increase_stress_locked : M unit :=
  a <- get_agent ;;
  if stress_level a <? 100
  then put_agent (set_stress (Z.min 100 (stress_level a + 1)) a)
  else ret tt.

(** The locked block of one round of [_auto_decrease_boss_alert]. *)
Definition decrease_boss_alert_locked : M unit :=
  a <- get_agent ;;
  if 0 <? boss_alert_level a
  then put_agent (set_alert (Z.max 0 (boss_alert_level a - 1)) a)
  else ret tt.

(** [reduce_stress]: the draw comes first, so an empty range raises before the
    gauge is written. *)
Definition reduce_stress (min_reduction max_reduction : Z) : M Z :=
  reduction <- randint min_reduction max_reduction ;;
  a <- get_agent ;;
  put_agent (set_stress (Z.max 0 (stress_level a - reduction)) a) ;;;
  emit (EvReduceStress reduction) ;;;
  ret reduction.

(** [maybe_increase_boss_alert]. *)
Definition maybe_increase_boss_alert : M bool :=
  draw <- randint 1 100 ;;
  a <- get_agent ;;
  if draw <=? boss_alertness a then
    if boss_alert_level a <? 5 then
      put_agent (set_alert (boss_alert_level a + 1) a) ;;;
      emit (EvAlertRoll true) ;;;
      ret true
    else emit (EvAlertRoll false) ;;; ret false
  else emit (EvAlertRoll false) ;;; ret false.

(** The dictionary returned by [get_state]. *)
Record state_dict : Type := mkStateDict {
  get_stress_level : Z;
  get_boss_alert_level : Z
}.

(** [get_state]. *)
Definition get_state : M state_dict :=
  a <- get_agent ;;
  emit (EvGetState (stress_level a) (boss_alert_level a)) ;;;
  ret (mkStateDict (stress_level a) (boss_alert_level a)).

(** *** Other tasks

    What the event loop can run while a task is suspended: the locked
    operations, called by the timers or by other invocations of the
    executor. *)
Inductive op : Type :=
| OpReduceStress (min_reduction max_reduction : Z)
| OpAlertRoll
| OpGetState
| OpStressTick
| OpAlertTick.

Definition run_op (o : op) : M unit :=
  match o with
  | OpReduceStress lo hi => _ <- reduce_stress lo hi ;; ret tt
  | OpAlertRoll => _ <- maybe_increase_boss_alert ;; ret tt
  | OpGetState => _ <- get_state ;; ret tt
  | OpStressTick => increase_stress_locked
  | OpAlertTick => decrease_boss_alert_locked
  end.

(** One operation after the other, each in a task of its own: an exception
    ends the task that raised it and the next operation runs on the world as
    it is then. *)
Definition step (w : world) (o : op) : world := snd (run_op o w).

Definition run_ops (ops : list op) (w : world) : world :=
  fold_left step ops w.

(** The worlds seen after each operation of a sequence. *)
Fixpoint history (ops : list op) (w : world) : list world :=
  match ops with
  | [] => []
  | o :: rest => step w o :: history rest (step w o)
  end.

(** [await asyncio.sleep(seconds)]: the task is suspended, the other tasks
    run on the shared gauges and the shared generator; what they raise and
    what they log is theirs.  The delay, an integer here, is added to the
    clock of the loop, a float: a positive delay that no float holds raises
    [OverflowError] before the task is suspended. *)
Definition suspended (seconds : Z) (others : list op) : M unit :=
  emit (EvSleep seconds) ;;;
  fun w =>
    let w' := run_ops others w in
    (inr tt, mkWorld (st w') (gen w') (trace w)).

Definition sleep (seconds : Z) (others : list op) : M unit :=
  if float_overflow <=? seconds then raise OverflowError
  else suspended seconds others.

(** [_auto_increase_stress]: its [while True] never ends; the model runs one
    round per element of [others], the element being what the other tasks do
    during that round's sleep. *)
Fixpoint _auto_increase_stress (others : list (list op)) : M unit :=
  match others with
  | [] => ret tt
  | during :: rest =>
      sleep 60 during ;;;
      increase_stress_locked ;;;
      _auto_increase_stress rest
  end.

(** [_auto_decrease_boss_alert], in the same way. *)
Fixpoint _auto_decrease_boss_alert (others : list (list op)) : M unit :=
  match others with
  | [] => ret tt
  | during :: rest =>
      a <- get_agent ;;
      sleep (boss_alertness_cooldown a) during ;;;
      decrease_boss_alert_locked ;;;
      _auto_decrease_boss_alert rest
  end.

(** [apply_boss_penalty_if_needed]: the gauge is read once, without the lock,
    before the sleep. *)
Definition apply_boss_penalty_if_needed (others : list op) : M unit :=
  a <- get_agent ;;
  if 5 <=? boss_alert_level a then
    print_stderr "[BOSS-PENALTY] Applying 20s delay - Boss Alert Level is at MAXIMUM (5/5)" ;;;
    sleep 20 others ;;;
    print_stderr "[BOSS-PENALTY] 20s delay completed"
  else ret tt.

End AgentStateManager.

(** ** [format_response] and [execute_break_tool] *)

(** One item of an MCP content list: the dictionary
    [{"type": ..., "text": ...}]. *)
Record content : Type := mkContent {
  content_type : string;
  content_text : string
}.

(** The line feed, and a string made of one. *)
Definition LF : ascii := ascii_of_nat 10.
Definition nl : string := String LF EmptyString.

(** The text of a response, the two integers already rendered. *)
Definition response_text (activity_summary creative_text stress boss : string)
  : string :=
  (creative_text ++ nl ++ nl
   ++ "Break Summary: " ++ activity_summary ++ nl
   ++ "Stress Level: " ++ stress ++ nl
   ++ "Boss Alert Level: " ++ boss)%string.

(** [format_response]: the f-string renders the stress, then the alert
    level. *)
Definition format_response (activity_summary creative_text : string)
    (stress_level boss_alert_level : Z) : exn + list content :=
  and_then (str stress_level) (fun stress =>
  and_then (str boss_alert_level) (fun boss =>
  let text_content :=
    response_text activity_summary creative_text stress boss in
  inr [mkContent "text" text_content])).

Definition noticed : string := " (Your boss seems to have noticed...)".

(** The f-string of step 6 of [execute_break_tool]. *)
Definition log_line (tool_name : string) (stress_level boss_alert_level : Z)
  : exn + string :=
  and_then (str stress_level) (fun stress =>
  and_then (str boss_alert_level) (fun boss =>
  inr ("[BREAK-TOOL: " ++ tool_name ++ "] Stress Level: " ++ stress
       ++ "/100, Boss Alert Level: " ++ boss ++ "/5")%string)).

Definition execute_break_tool (others : list AgentStateManager.op)
    (tool_name : string) (min_stress_reduction max_stress_reduction : Z)
    (activity_summary : string) (creative_messages : list string)
  : M (list content) :=
  (* Step 1 *)
  AgentStateManager.apply_boss_penalty_if_needed others ;;;
  (* Step 2 *)
  reduction <- AgentStateManager.reduce_stress
                 min_stress_reduction max_stress_reduction ;;
  (* Step 3 *)
  boss_increased <- AgentStateManager.maybe_increase_boss_alert ;;
  (* Step 4 *)
  state <- AgentStateManager.get_state ;;
  (* Step 5 *)
  creative_text <- choice creative_messages ;;
  let creative_text :=
    if (boss_increased : bool) then (creative_text ++ noticed)%string
    else creative_text in
  (* Step 6: the line is made, then printed *)
  line <- lift (log_line tool_name
                  (AgentStateManager.get_stress_level state)
                  (AgentStateManager.get_boss_alert_level state)) ;;
  print_stderr line ;;;
  (* Step 7 *)
  lift (format_response activity_summary creative_text
          (AgentStateManager.get_stress_level state)
          (AgentStateManager.get_boss_alert_level state)).

(** ** The break tools *)

Record tool : Type := mkTool {
  tool_name : string;
  tool_min : Z;
  tool_max : Z;
  tool_summary : string;
  tool_messages : list string
}.

Definition run_tool (others : list AgentStateManager.op) (t : tool)
  : M (list content) :=
  execute_break_tool others (tool_name t) (tool_min t) (tool_max t)
    (tool_summary t) (tool_messages t).

Definition take_a_break : tool :=
  mkTool "take_a_break" 10 30 "Took a brief general break"
    [ "Stepped away from the keyboard for a moment of peace.";
      "Just needed a quick breather to reset.";
      "Short break taken - feeling refreshed!";
      "Paused for a moment to collect my thoughts." ].

Definition watch_netflix : tool :=
  mkTool "watch_netflix" 20 40 "Watched Netflix for deep relaxation"
    [ "Just binged 2 episodes - totally worth it!";
      "Netflix and chill mode activated.";
      "That plot twist was amazing! Stress = gone.";
      "Lost track of time in my favorite series." ].

Definition show_meme : tool :=
  mkTool "show_meme" 5 20 "Browsed memes for quick mental refresh"
    [ "LOL! That meme was exactly what I needed.";
      "Quick scroll through memes - instant mood boost!";
      "Can't stop laughing at this one!";
      "Meme break: short but effective." ].

Definition bathroom_break : tool :=
  mkTool "bathroom_break" 15 35 "Took a necessary bathroom break"
    [ "Bathroom break = phone time. Classic move.";
      "Nature calls... and so does social media.";
      "Most productive bathroom break ever.";
      "Caught up on messages during bio break." ].

Definition coffee_mission : tool :=
  mkTool "coffee_mission" 10 25 "Went on a coffee mission"
    [ "Coffee run complete - and took the scenic route!";
      "Stretched my legs while grabbing caffeine.";
      "Best part? Chatted with colleagues along the way.";
      "Coffee acquired. Energy restored." ].

Definition urgent_call : tool :=
  mkTool "urgent_call" 20 40 "Took an urgent call outside"
    [ "Sorry, had to take this urgent call... (went for a walk)";
      "Very important call. Very important break.";
      "Escaped to the outdoors for a 'crucial' conversation.";
      "Fresh air + fake urgency = perfect combo." ].

Definition deep_thinking : tool :=
  mkTool "deep_thinking" 5 15 "Engaged in deep thinking"
    [ "Staring into the void... I mean, thinking deeply.";
      "Looking contemplative. Actually just zoning out.";
      "Deep thoughts mode: activated. (Mind: blank)";
      "Appeared busy while mentally checking out." ].

Definition email_organizing : tool :=
  mkTool "email_organizing" 10 25 "Organized emails (and browsed online)"
    [ "Organizing emails... and my shopping cart.";
      "Inbox zero achieved! (Plus some online shopping)";
      "Very busy with 'administrative tasks'.";
      "Email management is important. So is browsing." ].

Definition break_tools : list tool :=
  [ take_a_break; watch_netflix; show_meme; bathroom_break;
    coffee_mission; urgent_call; deep_thinking; email_organizing ].

(** ** The entry point *)

(** The values [argparse] hands over: the two integer options, absent or
    given, and the [--server] flag. *)
Record argv : Type := mkArgv {
  opt_boss_alertness : option Z;
  opt_boss_alertness_cooldown : option Z;
  opt_server : bool
}.

Record args : Type := mkArgs {
  args_boss_alertness : Z;
  args_boss_alertness_cooldown : Z;
  args_server : bool
}.

Definition default {A} (d : A) (o : option A) : A :=
  match o with Some x => x | None => d end.

(** [parse_arguments]: [parser.error] prints its message and leaves the
    process; the message is the left result. *)
Definition parse_arguments (v : argv) : string + args :=
  let a := mkArgs (default 50 (opt_boss_alertness v))
                  (default 300 (opt_boss_alertness_cooldown v))
                  (opt_server v) in
  if negb ((0 <=? args_boss_alertness a) && (args_boss_alertness a <=? 100))
  then inl "--boss_alertness must be between 0 and 100"
  else if args_boss_alertness_cooldown a <=? 0
  then inl "--boss_alertness_cooldown must be positive"
  else inr a.

(** The state manager made by the entry point: [initialize_state_manager]
    in server mode and [run_interactive_mode] otherwise both pass the two
    parsed values to the constructor.  Nothing is made when the command line
    is refused. *)
Definition main (v : argv) : string + agent :=
  match parse_arguments v with
  | inl msg => inl msg
  | inr a =>
      inr (AgentStateManager.__init__ (args_boss_alertness a)
             (args_boss_alertness_cooldown a))
  end.

(** ** Requests served one after the other

    An invocation that is not penalised never awaits anything that suspends
    it, so the event loop runs it in one piece; a penalised one lets the
    others in during its sleep.  A run of the server is thus a sequence of
    timer rounds and of invocations, each invocation carrying what the others
    do while it sleeps. *)
Inductive request : Type :=
| Timer (o : AgentStateManager.op)
| Invoke (others : list AgentStateManager.op) (t : tool).

Definition serve1 (w : world) (r : request) : world :=
  match r with
  | Timer o => AgentStateManager.step w o
  | Invoke others t => snd (run_tool others t w)
  end.

(** The worlds seen after each request. *)
Fixpoint serve (reqs : list request) (w : world) : list world :=
  match reqs with
  | [] => []
  | r :: rest => serve1 w r :: serve rest (serve1 w r)
  end.

(** The world a process starts in. *)
Definition boot (alertness cooldown : Z) (g : rng) : world :=
  mkWorld (AgentStateManager.__init__ alertness cooldown) g [].

(** ** Reading a trace *)

Inductive step_kind : Type :=
| PenaltyWait
| StressReduction
| AlertRoll
| Snapshot.

Definition kind_of (e : event) : option step_kind :=
  match e with
  | EvSleep _ => Some PenaltyWait
  | EvStderr _ => None
  | EvReduceStress _ => Some StressReduction
  | EvAlertRoll _ => Some AlertRoll
  | EvGetState _ _ => Some Snapshot
  end.

(** The steps a trace went through, the log lines left out. *)
Fixpoint steps (t : list event) : list step_kind :=
  match t with
  | [] => []
  | e :: rest =>
      match kind_of e with
      | Some k => k :: steps rest
      | None => steps rest
      end
  end.

Definition is_sleep (e : event) : bool :=
  match e with EvSleep _ => true | _ => false end.

(** ** Lines of a text *)

(** [text.split("\n")]. *)
Fixpoint lines (s : string) : list string :=
  match s with
  | EmptyString => [EmptyString]
  | String c rest =>
      if Ascii.eqb c LF then EmptyString :: lines rest
      else match lines rest with
           | [] => [String c EmptyString]
           | l :: ls => String c l :: ls
           end
  end.

Fixpoint has_lf (s : string) : bool :=
  match s with
  | EmptyString => false
  | String c rest => Ascii.eqb c LF || has_lf rest
  end.

(** The last two elements of a list, when it has two. *)
Definition last_two {A} (l : list A) : list A :=
  skipn (List.length l - 2) l.

(** ** The invariants of the gauges *)

Definition stress_bounded (a : agent) : Prop := 0 <= stress_level a <= 100.
Definition alert_bounded (a : agent) : Prop := 0 <= boss_alert_level a <= 5.
Definition gauges_bounded (a : agent) : Prop :=
  stress_bounded a /\ alert_bounded a.

(** A profile the spec allows for [reduce_stress]. *)
Definition valid_op (o : AgentStateManager.op) : Prop :=
  match o with
  | AgentStateManager.OpReduceStress lo hi => 0 <= lo <= hi
  | _ => True
  end.

(** The draws that the next cells of the tape give. *)
Definition next_cell (w : world) : Z := raw (gen w) (pos (gen w)).

Definition advance (w : world) : world :=
  mkWorld (st w) (mkRng (raw (gen w)) (S (pos (gen w)))) (trace w).

Definition reduction_draw (lo hi : Z) (w : world) : Z :=
  lo + next_cell w mod (hi - lo + 1).

Definition alert_draw (w : world) : Z := 1 + next_cell w mod 100.

(** Whether the roll of the next cell raises the alert. *)
Definition alert_fires (w : world) : bool :=
  (alert_draw w <=? boss_alertness (st w)) && (boss_alert_level (st w) <? 5).

(** The two log lines around the penalty sleep. *)
Definition penalty_lines_before : event :=
  EvStderr "[BOSS-PENALTY] Applying 20s delay - Boss Alert Level is at MAXIMUM (5/5)".

Definition penalty_lines_after : event :=
  EvStderr "[BOSS-PENALTY] 20s delay completed".

(** The world in which the others run while a penalised task sleeps. *)
Definition asleep (w : world) : world :=
  mkWorld (st w) (gen w) (trace w ++ [penalty_lines_before; EvSleep 20]).

(** The world a task is in once it is past the penalty gate. *)
Definition after_gate (others : list AgentStateManager.op) (w : world)
  : world :=
  snd (AgentStateManager.apply_boss_penalty_if_needed others w).

(** What holds of a world when the alertness is 0 and nothing has ever raised
    the alert. *)
Definition calm (w : world) : Prop :=
  boss_alertness (st w) = 0
  /\ boss_alert_level (st w) = 0
  /\ (forall s, ~ In (EvSleep s) (trace w))
  /\ ~ In (EvAlertRoll true) (trace w).

(** ** Small worlds to run the code on *)

(** A tape that repeats one value, and a small world on it. *)
Definition constant_tape (n : Z) : rng := mkRng (fun _ => n) 0.

Definition sample_world (stress alert alertness n : Z) : world :=
  mkWorld (mkAgent stress alert alertness 300) (constant_tape n) [].

(** A tape that starts with the given cells and goes on with zeros. *)
Definition tape_of (cells : list Z) : rng :=
  mkRng (fun n => List.nth n cells 0) 0.

(** ** [get_status] *)

(** The first [if] chain of [get_status]. *)
Definition stress_status (stress : Z) : string :=
  if 80 <=? stress then "CRITICAL - Need a break ASAP!"
  else if 60 <=? stress then "High - Break recommended"
  else if 40 <=? stress then "Moderate - Manageable"
  else "Low - Feeling good!".

(** The second one. *)
Definition boss_status (boss : Z) : string :=
  if 5 <=? boss then "MAXIMUM - Every action has 20s delay!"
  else if 3 <=? boss then "High - Boss is watching closely"
  else if 1 <=? boss then "Moderate - Some attention detected"
  else "Clear - Coast is clear!".

(** The text of the report, the integers already rendered. *)
Definition status_text (stress boss : Z) (stress1 boss1 stress2 boss2 : string)
  : string :=
  ("Agent Status Report" ++ nl ++ nl
   ++ "Stress Level: " ++ stress1
   ++ "/100 (" ++ stress_status stress ++ ")" ++ nl
   ++ "Boss Alert Level: " ++ boss1
   ++ "/5 (" ++ boss_status boss ++ ")" ++ nl ++ nl
   ++ "Break Summary: Status check completed" ++ nl
   ++ "Stress Level: " ++ stress2 ++ nl
   ++ "Boss Alert Level: " ++ boss2)%string.

(** [get_status]: the f-string renders the stress and the alert level, twice
    each, in the order they are written. *)
Definition get_status : M (list content) :=
  state <- AgentStateManager.get_state ;;
  let stress := AgentStateManager.get_stress_level state in
  let boss := AgentStateManager.get_boss_alert_level state in
  text_content <-
    lift (and_then (str stress) (fun stress1 =>
          and_then (str boss) (fun boss1 =>
          and_then (str stress) (fun stress2 =>
          and_then (str boss) (fun boss2 =>
          inr (status_text stress boss stress1 boss1 stress2 boss2)))))) ;;
  ret [mkContent "text" text_content].

(** ** [match_break_tool]

    Strings are their UTF-8 bytes; a keyword occurs in a text as a run of
    code points exactly when its bytes occur in the bytes of the text.
    [str.lower] is not modelled: the function takes it as [lower]. *)

(** [needle in hay]. *)
Fixpoint contains (needle hay : string) : bool :=
  String.prefix needle hay
  || match hay with
     | EmptyString => false
     | String _ rest => contains needle rest
     end.

(** One value of the dictionary [tool_keywords]. *)
Record config : Type := mkConfig {
  cfg_keywords : list string;
  cfg_min : Z;
  cfg_max : Z;
  cfg_summary : string;
  cfg_messages : list string
}.

(** The dictionary, in the order it is written, which is the order Python
    goes through it. *)
Definition tool_keywords : list (string * config) :=
  [ ("take_a_break",
     mkConfig
       ["휴식"; "break"; "rest"; "쉬고"; "잠깐"; "쉬어"; "쉬자"; "쉬기";
        "브레이크"]
       10 30 "Took a brief general break"
       [ "Stepped away from the keyboard for a moment of peace.";
         "Just needed a quick breather to reset.";
         "Short break taken - feeling refreshed!";
         "Paused for a moment to collect my thoughts." ]);
    ("watch_netflix",
     mkConfig
       ["넷플릭스"; "netflix"; "드라마"; "영화"; "시청"; "watch"; "보고";
        "보기"; "영상"; "넷플"; "넷플ㅋ"]
       20 40 "Watched Netflix for deep relaxation"
       [ "Just binged 2 episodes - totally worth it!";
         "Netflix and chill mode activated.";
         "That plot twist was amazing! Stress = gone.";
         "Lost track of time in my favorite series." ]);
    ("show_meme",
     mkConfig
       ["밈"; "meme"; "웃긴"; "재미"; "개그"; "funny"; "유머"; "ㅋㅋ"; "밈ㅋ";
        "짤"]
       5 20 "Browsed memes for quick mental refresh"
       [ "LOL! That meme was exactly what I needed.";
         "Quick scroll through memes - instant mood boost!";
         "Can't stop laughing at this one!";
         "Meme break: short but effective." ]);
    ("bathroom_break",
     mkConfig
       ["화장실"; "bathroom"; "toilet"; "washroom"; "볼일"; "화장";
        "restroom"; "화장실ㄱ"]
       15 35 "Took a necessary bathroom break"
       [ "Bathroom break = phone time. Classic move.";
         "Nature calls... and so does social media.";
         "Most productive bathroom break ever.";
         "Caught up on messages during bio break." ]);
    ("coffee_mission",
     mkConfig
       ["커피"; "coffee"; "카페"; "cafe"; "음료"; "drink"; "커피ㄱ"; "커피타";
        "커피타러"]
       10 25 "Went on a coffee mission"
       [ "Coffee run complete - and took the scenic route!";
         "Stretched my legs while grabbing caffeine.";
         "Best part? Chatted with colleagues along the way.";
         "Coffee acquired. Energy restored." ]);
    ("urgent_call",
     mkConfig
       ["전화"; "call"; "긴급"; "urgent"; "나가"; "밖으로"; "outside";
        "전화ㅋ"; "급한전화"]
       20 40 "Took an urgent call outside"
       [ "Sorry, had to take this urgent call... (went for a walk)";
         "Very important call. Very important break.";
         "Escaped to the outdoors for a 'crucial' conversation.";
         "Fresh air + fake urgency = perfect combo." ]);
    ("deep_thinking",
     mkConfig
       ["생각"; "thinking"; "사색"; "고민"; "think"; "명상"; "meditation";
        "멍"; "멍때리"]
       5 15 "Engaged in deep thinking"
       [ "Staring into the void... I mean, thinking deeply.";
         "Looking contemplative. Actually just zoning out.";
         "Deep thoughts mode: activated. (Mind: blank)";
         "Appeared busy while mentally checking out." ]);
    ("email_organizing",
     mkConfig
       ["이메일"; "email"; "정리"; "organizing"; "메일"; "inbox";
        "메일정리"; "쇼핑"]
       10 25 "Organized emails (and browsed online)"
       [ "Organizing emails... and my shopping cart.";
         "Inbox zero achieved! (Plus some online shopping)";
         "Very busy with 'administrative tasks'.";
         "Email management is important. So is browsing." ]) ].

(** The inner loop: whether one of the keywords is in the text. *)
Fixpoint any_keyword (keywords : list string) (user_input : string) : bool :=
  match keywords with
  | [] => false
  | keyword :: rest =>
      if contains keyword user_input then true
      else any_keyword rest user_input
  end.

(** The outer loop, over the items of a dictionary. *)
Fixpoint first_match (items : list (string * config)) (user_input : string)
  : option (string * Z * Z * string * list string) :=
  match items with
  | [] => None
  | (name, c) :: rest =>
      if any_keyword (cfg_keywords c) user_input
      then Some (name, cfg_min c, cfg_max c, cfg_summary c, cfg_messages c)
      else first_match rest user_input
  end.

Definition match_break_tool (lower : string -> string) (user_input : string)
  : option (string * Z * Z * string * list string) :=
  let user_input := lower user_input in
  first_match tool_keywords user_input.

(** What [run_interactive_mode] does with a match: it unpacks the tuple and
    calls the executor with it. *)
Definition execute_match (others : list AgentStateManager.op)
    (m : string * Z * Z * string * list string) : M (list content) :=
  let '(name, min_red, max_red, summary, messages) := m in
  execute_break_tool others name min_red max_red summary messages.

(** The profile of a tool as a tuple of [match_break_tool]. *)
Definition tuple_of (t : tool) : string * Z * Z * string * list string :=
  (tool_name t, tool_min t, tool_max t, tool_summary t, tool_messages t).

(** ** More ways to read a trace and to make worlds *)

(** The sum of the reductions a trace reports. *)
Fixpoint total_reduction (t : list event) : Z :=
  match t with
  | [] => 0
  | EvReduceStress r :: rest => r + total_reduction rest
  | _ :: rest => total_reduction rest
  end.

(** The seconds slept in a trace, in order. *)
Fixpoint sleeps (t : list event) : list Z :=
  match t with
  | [] => []
  | EvSleep s :: rest => s :: sleeps rest
  | _ :: rest => sleeps rest
  end.

Definition is_reduce (o : AgentStateManager.op) : bool :=
  match o with AgentStateManager.OpReduceStress _ _ => true | _ => false end.

(** Invocations by a quiet server: nobody else at work during a sleep. *)
Definition quiet_calls (ts : list tool) : list request :=
  map (Invoke []) ts.

Definition well_formed (t : tool) : Prop :=
  tool_min t <= tool_max t /\ tool_messages t <> [].

(** Steps 5 to 7 of [execute_break_tool], given what steps 3 and 4
    returned. *)
Definition finish (tool_name activity_summary : string)
    (creative_messages : list string) (boss_increased : bool)
    (state : AgentStateManager.state_dict) : M (list content) :=
  creative_text <- choice creative_messages ;;
  let creative_text :=
    if boss_increased then (creative_text ++ noticed)%string
    else creative_text in
  line <- lift (log_line tool_name
                  (AgentStateManager.get_stress_level state)
                  (AgentStateManager.get_boss_alert_level state)) ;;
  print_stderr line ;;;
  lift (format_response activity_summary creative_text
          (AgentStateManager.get_stress_level state)
          (AgentStateManager.get_boss_alert_level state)).

(** An integer the interpreter accepts to render. *)
Definition renderable (n : Z) : Prop := digits n <= int_max_str_digits.

(** The two fields set at construction. *)
Definition config_of (a : agent) : Z * Z :=
  (boss_alertness a, boss_alertness_cooldown a).

(** The tuple [match_break_tool] makes of an item of the dictionary. *)
Definition entry_tuple (e : string * config)
  : string * Z * Z * string * list string :=
  (fst e, cfg_min (snd e), cfg_max (snd e), cfg_summary (snd e),
   cfg_messages (snd e)).

(** The line [get_status] shows at the maximum level. *)
Definition maximum_status : string := "MAXIMUM - Every action has 20s delay!".

(** A keyword occurs in a text. *)
Definition occurs_in (keyword text : string) : Prop :=
  exists before after, text = (before ++ keyword ++ after)%string.

(** Requests whose reductions have a range the gauges are safe with: a
    range that is not empty starts at 0 or above. *)
Definition valid_request (r : request) : Prop :=
  match r with
  | Timer o => valid_op o
  | Invoke others t =>
      Forall valid_op others /\ (tool_min t <= tool_max t -> 0 <= tool_min t)
  end.

(** * Properties *)

(** ** Rendering and sleeping *)

Lemma str_renderable (n : Z) : renderable n -> str n = inr (decimal n).
Proof.
  unfold renderable, str. intros H.
  destruct (Z.leb_spec (digits n) int_max_str_digits); [reflexivity | lia].
Qed.

Lemma str_returns (n : Z) (s : string) :
  str n = inr s -> s = decimal n /\ renderable n.
Proof.
  unfold renderable, str.
  destruct (Z.leb_spec (digits n) int_max_str_digits); [| discriminate].
  intros [= <-]. auto.
Qed.

Lemma str_raises (n : Z) : ~ renderable n -> str n = inl ValueError.
Proof.
  unfold renderable, str. intros H.
  destruct (Z.leb_spec (digits n) int_max_str_digits); [lia | reflexivity].
Qed.

(** The values of a gauge within its bounds have at most three digits. *)
Lemma small_renderable (n : Z) : 0 <= n <= 100 -> renderable n.
Proof.
  intros Hn.
  assert (H : forallb (fun k => digits (Z.of_nat k) <=? 3) (seq 0 101)
              = true) by (vm_compute; reflexivity).
  rewrite forallb_forall in H.
  specialize (H (Z.to_nat n)).
  rewrite Z2Nat.id in H by lia.
  unfold renderable, int_max_str_digits.
  assert (Hin : In (Z.to_nat n) (seq 0 101)) by (apply in_seq; lia).
  apply H in Hin. apply Z.leb_le in Hin. lia.
Qed.

Lemma gauges_renderable (a : agent) :
  gauges_bounded a ->
  renderable (stress_level a) /\ renderable (boss_alert_level a).
Proof.
  intros [Hs Ha]. unfold stress_bounded in Hs. unfold alert_bounded in Ha.
  split; apply small_renderable; lia.
Qed.

Lemma float_overflow_large : 1000 < float_overflow.
Proof. apply Z.ltb_lt. vm_compute. reflexivity. Qed.

Lemma sleep_suspends (seconds : Z) (others : list AgentStateManager.op) :
  seconds < float_overflow ->
  AgentStateManager.sleep seconds others
  = AgentStateManager.suspended seconds others.
Proof.
  intros H. unfold AgentStateManager.sleep.
  destruct (Z.leb_spec float_overflow seconds); [lia | reflexivity].
Qed.

Lemma sleep_overflows (seconds : Z) (others : list AgentStateManager.op)
    (w : world) :
  float_overflow <= seconds ->
  AgentStateManager.sleep seconds others w = (inl OverflowError, w).
Proof.
  intros H. unfold AgentStateManager.sleep.
  destruct (Z.leb_spec float_overflow seconds); [reflexivity | lia].
Qed.

(** ** The random module *)

Lemma randint_in_range (a b : Z) (w : world) :
  a <= b ->
  randint a b w = (inr (a + next_cell w mod (b - a + 1)), advance w)
  /\ a <= a + next_cell w mod (b - a + 1) <= b.
Proof.
  intros Hab. unfold randint.
  destruct (Z.ltb_spec b a) as [Hlt | _]; [lia |].
  split; [reflexivity |].
  pose proof (Z.mod_pos_bound (next_cell w) (b - a + 1)) as Hm. lia.
Qed.

Lemma randint_empty (a b : Z) (w : world) :
  b < a -> randint a b w = (inl ValueError, w).
Proof.
  intros Hba. unfold randint.
  destruct (Z.ltb_spec b a) as [_ | Hle]; [reflexivity | lia].
Qed.

(** Every integer of the range is drawn by exactly one cell value among the
    first [b - a + 1]: the draw favours none. *)
Lemma randint_fair (a b r : Z) :
  a <= r <= b ->
  exists n, 0 <= n < b - a + 1 /\ a + n mod (b - a + 1) = r
            /\ forall n', 0 <= n' < b - a + 1 ->
                          a + n' mod (b - a + 1) = r -> n' = n.
Proof.
  intros Hr. exists (r - a). split; [lia |]. split.
  - rewrite Z.mod_small by lia. lia.
  - intros n' Hn' Heq. rewrite Z.mod_small in Heq by lia. lia.
Qed.

(** ** The locked operations, run *)

Import AgentStateManager.

Lemma reduce_stress_run (lo hi : Z) (w : world) :
  lo <= hi ->
  reduce_stress lo hi w =
    (inr (reduction_draw lo hi w),
     mkWorld
       (set_stress (Z.max 0 (stress_level (st w) - reduction_draw lo hi w))
          (st w))
       (gen (advance w))
       (trace w ++ [EvReduceStress (reduction_draw lo hi w)])).
Proof.
  intros Hle. unfold reduce_stress, bind.
  destruct (randint_in_range lo hi w Hle) as [-> _]. reflexivity.
Qed.

Lemma reduce_stress_raises (lo hi : Z) (w : world) :
  hi < lo -> reduce_stress lo hi w = (inl ValueError, w).
Proof.
  intros Hlt. unfold reduce_stress, bind.
  now rewrite (randint_empty lo hi w Hlt).
Qed.

Lemma alert_draw_range (w : world) : 1 <= alert_draw w <= 100.
Proof.
  unfold alert_draw.
  pose proof (Z.mod_pos_bound (next_cell w) 100). lia.
Qed.

Lemma maybe_increase_boss_alert_run (w : world) :
  maybe_increase_boss_alert w =
    (inr (alert_fires w),
     mkWorld
       (if alert_fires w
        then set_alert (boss_alert_level (st w) + 1) (st w)
        else st w)
       (gen (advance w))
       (trace w ++ [EvAlertRoll (alert_fires w)])).
Proof.
  unfold maybe_increase_boss_alert, alert_fires, alert_draw, bind, randint.
  simpl.
  destruct (_ <=? boss_alertness (st w)); simpl; [| reflexivity].
  destruct (boss_alert_level (st w) <? 5); reflexivity.
Qed.

Lemma get_state_run (w : world) :
  get_state w =
    (inr (mkStateDict (stress_level (st w)) (boss_alert_level (st w))),
     mkWorld (st w) (gen w)
       (trace w ++ [EvGetState (stress_level (st w))
                      (boss_alert_level (st w))])).
Proof. reflexivity. Qed.

Lemma penalty_run (others : list op) (w : world) :
  apply_boss_penalty_if_needed others w =
    if 5 <=? boss_alert_level (st w)
    then (inr tt,
          mkWorld (st (run_ops others (asleep w)))
            (gen (run_ops others (asleep w)))
            (trace w ++ [penalty_lines_before; EvSleep 20; penalty_lines_after]))
    else (inr tt, w).
Proof.
  unfold apply_boss_penalty_if_needed.
  rewrite (sleep_suspends 20 others)
    by (pose proof float_overflow_large; lia).
  unfold bind, get_agent.
  destruct (5 <=? boss_alert_level (st w)); [| reflexivity].
  unfold print_stderr, suspended, emit, bind, asleep. simpl.
  rewrite <- !app_assoc. reflexivity.
Qed.

(** ** The gauge operations *)

(** C7: [reduce_stress] called with [min > max] raises ([random.randint]
    refuses the empty range with [ValueError]) before anything is written:
    the stress gauge, and the whole world, are as they were. *)
Theorem reduce_stress_empty_range (lo hi : Z) (w : world) :
  hi < lo ->
  fst (reduce_stress lo hi w) = inl ValueError
  /\ snd (reduce_stress lo hi w) = w
  /\ stress_level (st (snd (reduce_stress lo hi w))) = stress_level (st w).
Proof.
  intros Hlt. rewrite (reduce_stress_raises lo hi w Hlt). simpl. auto.
Qed.

Lemma reduce_stress_empty_range_witness :
  3 < 5
  /\ fst (reduce_stress 5 3 (sample_world 50 0 50 7)) = inl ValueError
  /\ snd (reduce_stress 5 3 (sample_world 50 0 50 7)) = sample_world 50 0 50 7
  /\ stress_level (st (snd (reduce_stress 5 3 (sample_world 50 0 50 7)))) = 50.
Proof.
  split; [lia |].
  apply (reduce_stress_empty_range 5 3 (sample_world 50 0 50 7)). lia.
Defined.

(** C4: [reduce_stress min max] with [0 <= min <= max], the gauge holding
    [s]: it returns the draw [r], an integer of [min..max]; the new stress is
    [max 0 (s - r)]; the value returned is the draw itself, also when the
    gauge dropped by less because it stopped at 0.  The alert gauge is not
    touched. *)
Theorem reduce_stress_nominal (lo hi : Z) (w : world) :
  0 <= lo <= hi ->
  let r := reduction_draw lo hi w in
  let w' := snd (reduce_stress lo hi w) in
  fst (randint lo hi w) = inr r
  /\ fst (reduce_stress lo hi w) = inr r
  /\ lo <= r <= hi
  /\ stress_level (st w') = Z.max 0 (stress_level (st w) - r)
  /\ (stress_level (st w) < r -> stress_level (st w') = 0)
  /\ boss_alert_level (st w') = boss_alert_level (st w).
Proof.
  intros [Hlo Hle] r w'. subst r w'.
  rewrite (reduce_stress_run lo hi w Hle). simpl.
  destruct (randint_in_range lo hi w Hle) as [Hd Hr].
  fold (reduction_draw lo hi w) in Hd, Hr. rewrite Hd.
  repeat split; try lia.
Qed.

Lemma reduce_stress_nominal_witness :
  0 <= 10 <= 30
  /\ fst (reduce_stress 10 30 (sample_world 3 0 50 20)) = inr 30
  /\ stress_level (st (snd (reduce_stress 10 30 (sample_world 3 0 50 20)))) = 0.
Proof.
  split; [lia |].
  destruct (reduce_stress_nominal 10 30 (sample_world 3 0 50 20))
    as (_ & Hret & _ & Hnew & _); [lia |].
  split; [exact Hret | exact Hnew].
Defined.

(** C3: [maybe_increase_boss_alert] draws an integer of [1..100]; when the
    draw is at most the alertness and the alert level is below 5, the level
    goes up by exactly 1 and [True] is returned; in every other case, a
    winning draw at level 5 included, the level stays and [False] is
    returned.  The level is therefore never moved past 5. *)
Theorem maybe_increase_boss_alert_spec (w : world) :
  let draw := alert_draw w in
  let level := boss_alert_level (st w) in
  let res := fst (maybe_increase_boss_alert w) in
  let level' := boss_alert_level (st (snd (maybe_increase_boss_alert w))) in
  fst (randint 1 100 w) = inr draw
  /\ 1 <= draw <= 100
  /\ (draw <= boss_alertness (st w) /\ level < 5 ->
      res = inr true /\ level' = level + 1 /\ level' <= 5)
  /\ (~ (draw <= boss_alertness (st w) /\ level < 5) ->
      res = inr false /\ level' = level)
  /\ (5 <= level -> res = inr false /\ level' = level)
  /\ stress_level (st (snd (maybe_increase_boss_alert w)))
     = stress_level (st w).
Proof.
  intros draw level res level'. subst draw level res level'.
  rewrite maybe_increase_boss_alert_run. simpl.
  split; [reflexivity |].
  split; [apply alert_draw_range |].
  unfold alert_fires.
  destruct (Z.leb_spec (alert_draw w) (boss_alertness (st w)));
    destruct (Z.ltb_spec (boss_alert_level (st w)) 5); simpl;
    repeat split; intros; try lia; try reflexivity.
Qed.



(** One round of a timer loop is its sleep followed by its locked block. *)
Lemma auto_increase_stress_round (during : list op) (rest : list (list op)) :
  _auto_increase_stress (during :: rest) =
    (sleep 60 during ;;; increase_stress_locked ;;; _auto_increase_stress rest).
Proof. reflexivity. Qed.

Lemma auto_decrease_boss_alert_round (during : list op)
    (rest : list (list op)) :
  _auto_decrease_boss_alert (during :: rest) =
    (a <- get_agent ;;
     sleep (boss_alertness_cooldown a) during ;;;
     decrease_boss_alert_locked ;;;
     _auto_decrease_boss_alert rest).
Proof. reflexivity. Qed.

(** With nobody else at work during the sleep, a round leaves the gauges its
    locked block leaves. *)
Lemma quiet_rounds (w : world) :
  boss_alertness_cooldown (st w) < float_overflow ->
  st (snd (_auto_increase_stress [[]] w)) = st (snd (increase_stress_locked w))
  /\ st (snd (_auto_decrease_boss_alert [[]] w))
     = st (snd (decrease_boss_alert_locked w)).
Proof.
  intros Hc.
  assert (E : _auto_decrease_boss_alert [[]] w
              = (sleep (boss_alertness_cooldown (st w)) [] ;;;
                 decrease_boss_alert_locked ;;; ret tt) w) by reflexivity.
  rewrite E, (sleep_suspends _ [] Hc). clear E.
  unfold _auto_increase_stress.
  rewrite (sleep_suspends 60 []) by (pose proof float_overflow_large; lia).
  unfold increase_stress_locked, decrease_boss_alert_locked, suspended, emit,
    bind, get_agent, run_ops.
  simpl.
  destruct (stress_level (st w) <? 100);
    destruct (0 <? boss_alert_level (st w)); split; reflexivity.
Qed.

(** ** Bounds of the gauges *)

Lemma step_alert_bounded (o : op) (w : world) :
  alert_bounded (st w) -> alert_bounded (st (step w o)).
Proof.
  unfold alert_bounded, step. intros Ha.
  destruct o as [lo hi | | | |]; unfold run_op, bind.
  - destruct (Z.lt_ge_cases hi lo) as [Hlt | Hle].
    + rewrite (reduce_stress_raises lo hi w Hlt). exact Ha.
    + rewrite (reduce_stress_run lo hi w Hle). exact Ha.
  - rewrite maybe_increase_boss_alert_run. simpl. unfold alert_fires.
    destruct (alert_draw w <=? boss_alertness (st w)); simpl; [| exact Ha].
    destruct (Z.ltb_spec (boss_alert_level (st w)) 5); simpl; lia.
  - rewrite get_state_run. exact Ha.
  - unfold increase_stress_locked, bind, get_agent.
    destruct (stress_level (st w) <? 100); exact Ha.
  - unfold decrease_boss_alert_locked, bind, get_agent.
    destruct (Z.ltb_spec 0 (boss_alert_level (st w))); simpl; lia.
Qed.

Lemma step_stress_bounded (o : op) (w : world) :
  valid_op o -> stress_bounded (st w) -> stress_bounded (st (step w o)).
Proof.
  unfold stress_bounded, step. intros Hv Hs.
  destruct o as [lo hi | | | |]; unfold run_op, bind.
  - simpl in Hv. destruct Hv as [Hlo Hle].
    rewrite (reduce_stress_run lo hi w Hle). simpl.
    destruct (randint_in_range lo hi w Hle) as [_ Hr].
    fold (reduction_draw lo hi w) in Hr. lia.
  - rewrite maybe_increase_boss_alert_run. simpl.
    destruct (alert_fires w); exact Hs.
  - rewrite get_state_run. exact Hs.
  - unfold increase_stress_locked, bind, get_agent.
    destruct (Z.ltb_spec (stress_level (st w)) 100); simpl; lia.
  - unfold decrease_boss_alert_locked, bind, get_agent.
    destruct (0 <? boss_alert_level (st w)); exact Hs.
Qed.

Lemma step_gauges_bounded (o : op) (w : world) :
  valid_op o -> gauges_bounded (st w) -> gauges_bounded (st (step w o)).
Proof.
  intros Hv [Hs Ha]. split.
  - now apply step_stress_bounded.
  - now apply step_alert_bounded.
Qed.

Lemma run_ops_alert_bounded (ops : list op) (w : world) :
  alert_bounded (st w) -> alert_bounded (st (run_ops ops w)).
Proof.
  revert w. induction ops as [| o ops IH]; intros w Ha; simpl; [exact Ha |].
  apply IH. now apply step_alert_bounded.
Qed.

Lemma history_gauges_bounded (ops : list op) (w : world) :
  Forall valid_op ops ->
  gauges_bounded (st w) ->
  Forall (fun w' => gauges_bounded (st w')) (history ops w).
Proof.
  intros Hv. revert w.
  induction Hv as [| o ops Ho _ IH]; intros w Hb; simpl; constructor.
  - now apply step_gauges_bounded.
  - apply IH. now apply step_gauges_bounded.
Qed.

Lemma boot_gauges_bounded (alertness cooldown : Z) (g : rng) :
  gauges_bounded (st (boot alertness cooldown g)).
Proof.
  unfold gauges_bounded, stress_bounded, alert_bounded. simpl. lia.
Qed.

(** C5: from the initial gauges (stress 50, alert level 0), whatever the
    configuration and the tape, after every operation of every sequence of
    [reduce_stress] (with [0 <= min <= max]), [maybe_increase_boss_alert],
    [get_state] and rounds of the two timers, the stress is within [0..100]
    and the alert level within [0..5]. *)
Theorem gauges_stay_bounded (alertness cooldown : Z) (g : rng)
    (ops : list op) :
  Forall valid_op ops ->
  stress_level (st (boot alertness cooldown g)) = 50
  /\ boss_alert_level (st (boot alertness cooldown g)) = 0
  /\ Forall (fun w => 0 <= stress_level (st w) <= 100
                      /\ 0 <= boss_alert_level (st w) <= 5)
       (history ops (boot alertness cooldown g)).
Proof.
  intros Hv. split; [reflexivity |]. split; [reflexivity |].
  apply (history_gauges_bounded ops _ Hv), boot_gauges_bounded.
Qed.

Lemma gauges_stay_bounded_witness :
  Forall valid_op [OpReduceStress 20 40; OpAlertRoll; OpStressTick;
                   OpAlertTick; OpGetState; OpReduceStress 20 40]
  /\ Forall (fun w => 0 <= stress_level (st w) <= 100
                      /\ 0 <= boss_alert_level (st w) <= 5)
       (history [OpReduceStress 20 40; OpAlertRoll; OpStressTick;
                 OpAlertTick; OpGetState; OpReduceStress 20 40]
          (boot 100 300 (constant_tape 20))).
Proof.
  assert (Hv : Forall valid_op
                 [OpReduceStress 20 40; OpAlertRoll; OpStressTick;
                  OpAlertTick; OpGetState; OpReduceStress 20 40]).
  { repeat constructor; simpl; lia. }
  split; [exact Hv |].
  apply (gauges_stay_bounded 100 300 (constant_tape 20) _ Hv).
Defined.

(** ** The executor, run *)

Lemma bind_ok {A B} (m : M A) (k : A -> M B) (w w' : world) (x : A) :
  m w = (inr x, w') -> bind m k w = k x w'.
Proof. intros H. unfold bind. now rewrite H. Qed.

Lemma bind_raises {A B} (m : M A) (k : A -> M B) (w w' : world) (e : exn) :
  m w = (inl e, w') -> bind m k w = (inl e, w').
Proof. intros H. unfold bind. now rewrite H. Qed.

Lemma penalty_returns (others : list op) (w : world) :
  apply_boss_penalty_if_needed others w = (inr tt, after_gate others w).
Proof.
  unfold after_gate. rewrite penalty_run.
  destruct (5 <=? boss_alert_level (st w)); reflexivity.
Qed.

Lemma choice_run (x : string) (xs : list string) (w : world) :
  exists msg, In msg (x :: xs) /\ choice (x :: xs) w = (inr msg, advance w).
Proof.
  unfold choice, bind, next_raw, ret.
  eexists. split; [| reflexivity].
  set (n := Z.to_nat _). destruct (Nat.lt_ge_cases n (List.length (x :: xs))).
  - now apply nth_In.
  - rewrite nth_overflow by assumption. now left.
Qed.

(** An invocation whose range is not empty gets to step 5 with the gauges
    the roll left and the snapshot in its trace. *)
Lemma execute_break_tool_unfold (others : list op) (name : string)
    (lo hi : Z) (summary : string) (msgs : list string) (w : world) :
  lo <= hi ->
  let w1 := after_gate others w in
  let w2 := snd (reduce_stress lo hi w1) in
  let w3 := snd (maybe_increase_boss_alert w2) in
  execute_break_tool others name lo hi summary msgs w =
    finish name summary msgs (alert_fires w2)
      (mkStateDict (stress_level (st w3)) (boss_alert_level (st w3)))
      (mkWorld (st w3) (gen w3)
         (trace w3 ++ [EvGetState (stress_level (st w3))
                         (boss_alert_level (st w3))])).
Proof.
  intros Hle w1 w2 w3. unfold execute_break_tool.
  rewrite (bind_ok _ _ _ _ _ (penalty_returns others w)). fold w1.
  assert (E2 : reduce_stress lo hi w1 = (inr (reduction_draw lo hi w1), w2)).
  { unfold w2. now rewrite (reduce_stress_run lo hi w1 Hle). }
  rewrite (bind_ok _ _ _ _ _ E2).
  assert (E3 : maybe_increase_boss_alert w2 = (inr (alert_fires w2), w3)).
  { unfold w3. now rewrite maybe_increase_boss_alert_run. }
  rewrite (bind_ok _ _ _ _ _ E3).
  rewrite (bind_ok _ _ _ _ _ (get_state_run w3)).
  reflexivity.
Qed.

Lemma log_line_renderable (name : string) (s b : Z) :
  renderable s -> renderable b ->
  exists line, log_line name s b = inr line.
Proof.
  intros Hs Hb. unfold log_line.
  rewrite (str_renderable s Hs), (str_renderable b Hb). simpl.
  eexists. reflexivity.
Qed.

Lemma log_line_unrenderable (name : string) (s b : Z) :
  ~ renderable s \/ ~ renderable b -> log_line name s b = inl ValueError.
Proof.
  intros H. unfold log_line, and_then.
  destruct (str s) as [e | x] eqn:Es.
  - unfold str in Es. destruct (digits s <=? int_max_str_digits);
      [discriminate | now inversion Es].
  - apply str_returns in Es as [_ Hs].
    destruct H as [H | H]; [contradiction |].
    now rewrite (str_raises b H).
Qed.

Lemma format_response_renderable (summary creative : string) (s b : Z) :
  renderable s -> renderable b ->
  format_response summary creative s b
  = inr [mkContent "text"
           (response_text summary creative (decimal s) (decimal b))].
Proof.
  intros Hs Hb. unfold format_response.
  now rewrite (str_renderable s Hs), (str_renderable b Hb).
Qed.

Lemma format_response_returns (summary creative : string) (s b : Z)
    (v : list content) :
  format_response summary creative s b = inr v ->
  renderable s /\ renderable b
  /\ v = [mkContent "text"
            (response_text summary creative (decimal s) (decimal b))].
Proof.
  unfold format_response, and_then.
  destruct (str s) as [e | x] eqn:Es; [discriminate |].
  destruct (str b) as [e | y] eqn:Eb; [discriminate |].
  apply str_returns in Es as [-> Hs]. apply str_returns in Eb as [-> Hb].
  intros [= <-]. auto.
Qed.

(** Steps 5 to 7 leave the gauges alone and add nothing but a log line. *)
Lemma finish_world (name summary : string) (msgs : list string)
    (raised : bool) (state : state_dict) (w : world) :
  st (snd (finish name summary msgs raised state w)) = st w
  /\ exists tail,
       steps tail = []
       /\ trace (snd (finish name summary msgs raised state w))
          = trace w ++ tail.
Proof.
  unfold finish. destruct msgs as [| x xs].
  - simpl. split; [reflexivity |]. exists []. now rewrite app_nil_r.
  - destruct (choice_run x xs w) as (msg & _ & Ec).
    rewrite (bind_ok _ _ _ _ _ Ec).
    unfold bind, lift, print_stderr, emit.
    destruct (log_line name (get_stress_level state)
                (get_boss_alert_level state)) as [e | line].
    + simpl. split; [reflexivity |]. exists []. now rewrite app_nil_r.
    + simpl. split; [reflexivity |]. exists [EvStderr line].
      split; reflexivity.
Qed.

Lemma finish_returns (name summary : string) (msgs : list string)
    (raised : bool) (s b : Z) (w : world) :
  msgs <> [] -> renderable s -> renderable b ->
  exists msg line,
    In msg msgs
    /\ finish name summary msgs raised (mkStateDict s b) w =
         (inr [mkContent "text"
                 (response_text summary
                    (if raised then (msg ++ noticed)%string else msg)
                    (decimal s) (decimal b))],
          mkWorld (st w) (gen (advance w)) (trace w ++ [EvStderr line])).
Proof.
  intros Hne Hs Hb. destruct msgs as [| x xs]; [congruence |].
  destruct (choice_run x xs w) as (msg & Hin & Ec).
  destruct (log_line_renderable name s b Hs Hb) as (line & El).
  exists msg, line. split; [exact Hin |].
  unfold finish. rewrite (bind_ok _ _ _ _ _ Ec).
  cbn [get_stress_level get_boss_alert_level].
  unfold bind, lift, print_stderr, emit. rewrite El.
  rewrite (format_response_renderable _ _ s b Hs Hb). reflexivity.
Qed.

Lemma finish_raises (name summary : string) (msgs : list string)
    (raised : bool) (s b : Z) (w : world) :
  msgs <> [] -> ~ renderable s \/ ~ renderable b ->
  finish name summary msgs raised (mkStateDict s b) w
  = (inl ValueError, advance w).
Proof.
  intros Hne Hn. destruct msgs as [| x xs]; [congruence |].
  destruct (choice_run x xs w) as (msg & _ & Ec).
  unfold finish. rewrite (bind_ok _ _ _ _ _ Ec).
  cbn [get_stress_level get_boss_alert_level].
  unfold bind, lift. now rewrite (log_line_unrenderable name s b Hn).
Qed.

Lemma execute_break_tool_run (others : list op) (name : string) (lo hi : Z)
    (summary : string) (msgs : list string) (w : world) :
  lo <= hi -> msgs <> [] ->
  let w1 := after_gate others w in
  let w2 := snd (reduce_stress lo hi w1) in
  let w3 := snd (maybe_increase_boss_alert w2) in
  renderable (stress_level (st w3)) ->
  renderable (boss_alert_level (st w3)) ->
  exists msg line,
    In msg msgs
    /\ execute_break_tool others name lo hi summary msgs w =
         (inr [mkContent "text"
                 (response_text summary
                    (if alert_fires w2 then (msg ++ noticed)%string else msg)
                    (decimal (stress_level (st w3)))
                    (decimal (boss_alert_level (st w3))))],
          mkWorld (st w3) (gen (advance w3))
            (trace w3 ++ [EvGetState (stress_level (st w3))
                            (boss_alert_level (st w3));
                          EvStderr line])).
Proof.
  intros Hle Hne w1 w2 w3 Hs Hb.
  rewrite (execute_break_tool_unfold others name lo hi summary msgs w Hle).
  fold w1 w2 w3.
  destruct (finish_returns name summary msgs (alert_fires w2) _ _
              (mkWorld (st w3) (gen w3)
                 (trace w3 ++ [EvGetState (stress_level (st w3))
                                 (boss_alert_level (st w3))]))
              Hne Hs Hb) as (msg & line & Hin & E).
  exists msg, line. split; [exact Hin |].
  rewrite E. unfold advance. simpl. rewrite <- app_assoc. reflexivity.
Qed.

Lemma run_ops_gauges_bounded (ops : list op) (w : world) :
  Forall valid_op ops ->
  gauges_bounded (st w) -> gauges_bounded (st (run_ops ops w)).
Proof.
  intros Hv. revert w.
  induction Hv as [| o ops Ho _ IH]; intros w Hb; simpl; [exact Hb |].
  apply IH. now apply step_gauges_bounded.
Qed.

(** The gauges an invocation leaves are within their bounds when it found
    them so, the others kept them so and its range starts at 0 or above. *)
Lemma invocation_steps_bounded (others : list op) (lo hi : Z) (w : world) :
  gauges_bounded (st w) -> Forall valid_op others -> 0 <= lo <= hi ->
  gauges_bounded
    (st (snd (maybe_increase_boss_alert
                (snd (reduce_stress lo hi (after_gate others w)))))).
Proof.
  intros Hb Hv [Hlo Hle].
  assert (H1 : gauges_bounded (st (after_gate others w))).
  { unfold after_gate. rewrite penalty_run.
    destruct (5 <=? boss_alert_level (st w)); [| exact Hb].
    simpl. now apply run_ops_gauges_bounded. }
  set (w1 := after_gate others w) in *.
  pose proof (step_gauges_bounded (OpReduceStress lo hi) w1
                (conj Hlo Hle) H1) as H2.
  unfold step, run_op, bind in H2.
  rewrite (reduce_stress_run _ _ w1 Hle) in H2 |- *. simpl in H2 |- *.
  match goal with
  | |- gauges_bounded (st (snd (maybe_increase_boss_alert ?w2))) =>
      pose proof (step_gauges_bounded OpAlertRoll w2 I H2) as H3;
      unfold step, run_op, bind in H3;
      rewrite (maybe_increase_boss_alert_run w2) in H3 |- *;
      exact H3
  end.
Qed.

(** ** The penalty gate and the order of the steps *)

Lemma steps_app (t u : list event) : steps (t ++ u) = steps t ++ steps u.
Proof.
  induction t as [| e t IH]; simpl; [reflexivity |].
  destruct (kind_of e); simpl; now rewrite IH.
Qed.

Lemma after_gate_trace (others : list op) (w : world) :
  trace (after_gate others w) =
    trace w ++ (if 5 <=? boss_alert_level (st w)
                then [penalty_lines_before; EvSleep 20; penalty_lines_after]
                else []).
Proof.
  unfold after_gate. rewrite penalty_run.
  destruct (5 <=? boss_alert_level (st w)); simpl;
    [reflexivity | now rewrite app_nil_r].
Qed.

(** The gauges a penalised task finds when it wakes up are those the others
    left; an unpenalised task goes on with the gauges it came with. *)
Lemma after_gate_st (others : list op) (w : world) :
  st (after_gate others w) =
    if 5 <=? boss_alert_level (st w)
    then st (run_ops others (asleep w))
    else st w.
Proof.
  unfold after_gate. rewrite penalty_run.
  destruct (5 <=? boss_alert_level (st w)); reflexivity.
Qed.

(** The events of an invocation whose range is not empty. *)
Lemma execute_break_tool_trace (others : list op) (name : string)
    (lo hi : Z) (summary : string) (msgs : list string) (w : world) :
  lo <= hi ->
  let w1 := after_gate others w in
  let w2 := snd (reduce_stress lo hi w1) in
  let w3 := snd (maybe_increase_boss_alert w2) in
  let w' := snd (execute_break_tool others name lo hi summary msgs w) in
  st w' = st w3
  /\ exists tail,
       steps tail = []
       /\ trace w' =
            trace w1
            ++ [EvReduceStress (reduction_draw lo hi w1);
                EvAlertRoll (alert_fires w2);
                EvGetState (stress_level (st w3)) (boss_alert_level (st w3))]
            ++ tail.
Proof.
  intros Hle w1 w2 w3 w'.
  assert (T3 : trace w3 =
               trace w1 ++ [EvReduceStress (reduction_draw lo hi w1);
                            EvAlertRoll (alert_fires w2)]).
  { unfold w3. rewrite maybe_increase_boss_alert_run. simpl.
    unfold w2. rewrite (reduce_stress_run lo hi w1 Hle). simpl.
    now rewrite <- app_assoc. }
  unfold w'.
  rewrite (execute_break_tool_unfold others name lo hi summary msgs w Hle).
  fold w1 w2 w3.
  match goal with
  | |- context [finish ?n ?sm ?ms ?r ?sd ?w4] =>
      destruct (finish_world n sm ms r sd w4) as (Hst & tail & Htail & Ht)
  end.
  rewrite Hst, Ht. simpl. split; [reflexivity |].
  exists tail. split; [exact Htail |].
  rewrite T3, <- !app_assoc. reflexivity.
Qed.

(** C6: an invocation made in any state the server can be in (the initial
    gauges followed by any operations) goes through the penalty gate once,
    first: it sleeps, for 20 seconds, if and only if the alert level is 5 when
    it is called; whatever the other tasks do to the gauges during the sleep,
    there is no second look at the level; the stress reduction, the alert roll
    and the snapshot follow in this order, each once. *)
Theorem penalty_gate_once (alertness cooldown : Z) (g : rng)
    (earlier others : list op) (name : string) (lo hi : Z)
    (summary : string) (msgs : list string) :
  lo <= hi ->
  let w := run_ops earlier (boot alertness cooldown g) in
  let w' := snd (execute_break_tool others name lo hi summary msgs w) in
  exists new,
    trace w' = trace w ++ new
    /\ steps new =
         (if boss_alert_level (st w) =? 5 then [PenaltyWait] else [])
         ++ [StressReduction; AlertRoll; Snapshot]
    /\ (forall s, In (EvSleep s) new -> s = 20)
    /\ (In (EvSleep 20) new <-> boss_alert_level (st w) = 5).
Proof.
  intros Hle w w'.
  assert (Ha : alert_bounded (st w)).
  { apply run_ops_alert_bounded, boot_gauges_bounded. }
  destruct (execute_break_tool_trace others name lo hi summary msgs w Hle)
    as (_ & tail & Htail & Ht).
  fold w' in Ht. rewrite after_gate_trace, <- app_assoc in Ht.
  eexists. split; [exact Ht |].
  assert (Hnosleep : forall s, ~ In (EvSleep s) tail).
  { clear - Htail. induction tail as [| e tail IH]; intros s Hin;
      [exact Hin |].
    simpl in Htail. destruct Hin as [He | Hin].
    - subst e. discriminate.
    - destruct (kind_of e); [discriminate | now apply (IH Htail s)]. }
  unfold alert_bounded in Ha.
  destruct (Z.leb_spec 5 (boss_alert_level (st w))) as [H5 | H5];
    destruct (Z.eqb_spec (boss_alert_level (st w)) 5) as [E5 | E5];
    try lia; rewrite !steps_app, Htail; simpl.
  - split; [reflexivity |]. split.
    + intros s [Hin | [Hin | [Hin | [Hin | [Hin | [Hin | Hin]]]]]];
        try discriminate.
      * now inversion Hin.
      * now apply Hnosleep in Hin.
    + split; [intros _; exact E5 | intros _; right; now left].
  - split; [reflexivity |]. split.
    + intros s [Hin | [Hin | [Hin | Hin]]]; try discriminate.
      now apply Hnosleep in Hin.
    + split; [| intros E; lia].
      intros [Hin | [Hin | [Hin | Hin]]]; try discriminate.
      now apply Hnosleep in Hin.
Qed.

Lemma penalty_gate_once_witness :
  10 <= 30
  /\ let w := run_ops [OpAlertRoll; OpAlertRoll; OpAlertRoll; OpAlertRoll;
                       OpAlertRoll] (boot 100 300 (constant_tape 20)) in
     let w' := snd (run_tool [OpAlertTick] take_a_break w) in
     boss_alert_level (st w) = 5
     /\ exists new,
          trace w' = trace w ++ new
          /\ steps new = [PenaltyWait; StressReduction; AlertRoll; Snapshot].
Proof.
  split; [lia |]. intros w w'. split; [reflexivity |].
  destruct (penalty_gate_once 100 300 (constant_tape 20)
              [OpAlertRoll; OpAlertRoll; OpAlertRoll; OpAlertRoll; OpAlertRoll]
              [OpAlertTick] (tool_name take_a_break) 10 30
              (tool_summary take_a_break) (tool_messages take_a_break))
    as (new & Ht & Hs & _); [lia |].
  exists new. split; [exact Ht | exact Hs].
Defined.

(** The level read at the gate is not read again: called at level 5, with the
    cooldown timer bringing the level down to 4 during the sleep, the
    invocation has slept all the same and goes on to its three steps; the roll
    then finds level 4 and may raise it back to 5. *)
Example stale_gate :
  let w := sample_world 50 5 100 20 in
  let w' := snd (run_tool [OpAlertTick] take_a_break w) in
  boss_alert_level (st (after_gate [OpAlertTick] w)) = 4
  /\ steps (trace w') = [PenaltyWait; StressReduction; AlertRoll; Snapshot]
  /\ In (EvAlertRoll true) (trace w')
  /\ boss_alert_level (st w') = 5.
Proof. vm_compute. intuition. Qed.

(** Called at level 4, an invocation whose own roll brings the level to 5
    does not sleep: the gate is behind it. *)
Example gate_is_first :
  let w := sample_world 50 4 100 20 in
  let w' := snd (run_tool [] take_a_break w) in
  steps (trace w') = [StressReduction; AlertRoll; Snapshot]
  /\ boss_alert_level (st w') = 5.
Proof. vm_compute. intuition. Qed.

(** ** No alertness, no alert *)

Lemma steps_nil_in (t : list event) (e : event) :
  steps t = [] -> In e t -> kind_of e = None.
Proof.
  induction t as [| e' t IH]; simpl; intros Hs Hin; [contradiction |].
  destruct (kind_of e') eqn:Hk; [discriminate |].
  destruct Hin as [-> | Hin]; [exact Hk | now apply IH].
Qed.

Lemma calm_never_fires (w : world) :
  boss_alertness (st w) = 0 -> alert_fires w = false.
Proof.
  intros H0. unfold alert_fires. rewrite H0.
  pose proof (alert_draw_range w).
  destruct (Z.leb_spec (alert_draw w) 0); [lia | reflexivity].
Qed.

Lemma calm_extend (a : agent) (g : rng) (w : world) (new : list event) :
  calm w ->
  boss_alertness a = 0 -> boss_alert_level a = 0 ->
  (forall e, In e new -> is_sleep e = false /\ e <> EvAlertRoll true) ->
  calm (mkWorld a g (trace w ++ new)).
Proof.
  intros (_ & _ & Hs & Hr) Ha Hl Hnew. unfold calm. simpl.
  repeat split; try assumption.
  - intros s Hin. apply in_app_or in Hin as [Hin | Hin].
    + now apply (Hs s).
    + now destruct (Hnew _ Hin) as [Hf _].
  - intros Hin. apply in_app_or in Hin as [Hin | Hin].
    + now apply Hr.
    + now destruct (Hnew _ Hin) as [_ Hf].
Qed.

Lemma calm_reduce_stress (lo hi : Z) (w : world) :
  calm w -> calm (snd (reduce_stress lo hi w)).
Proof.
  intros Hc. destruct (Z.lt_ge_cases hi lo) as [Hlt | Hle].
  - now rewrite (reduce_stress_raises lo hi w Hlt).
  - rewrite (reduce_stress_run lo hi w Hle). simpl.
    destruct Hc as (Ha & Hl & Hrest) eqn:E. clear E.
    apply calm_extend; try assumption.
    intros e [<- | []]. split; [reflexivity | discriminate].
Qed.

Lemma calm_roll (w : world) :
  calm w -> calm (snd (maybe_increase_boss_alert w)).
Proof.
  intros Hc. pose proof Hc as (Ha & Hl & _).
  rewrite maybe_increase_boss_alert_run, (calm_never_fires w Ha). simpl.
  apply calm_extend; try assumption.
  intros e [<- | []]. split; [reflexivity | discriminate].
Qed.

Lemma calm_step (o : op) (w : world) : calm w -> calm (step w o).
Proof.
  intros Hc. pose proof Hc as (Ha & Hl & Hs & Hr).
  unfold step. destruct o as [lo hi | | | |]; unfold run_op, bind.
  - pose proof (calm_reduce_stress lo hi w Hc) as H.
    now destruct (reduce_stress lo hi w) as [[e | r] w1].
  - pose proof (calm_roll w Hc) as H.
    now destruct (maybe_increase_boss_alert w) as [[e | r] w1].
  - rewrite get_state_run. simpl.
    apply calm_extend; try assumption.
    intros e [<- | []]. split; [reflexivity | discriminate].
  - unfold increase_stress_locked, bind, get_agent.
    destruct (stress_level (st w) <? 100); simpl; [| exact Hc].
    unfold calm; simpl; auto.
  - unfold decrease_boss_alert_locked, bind, get_agent.
    destruct (Z.ltb_spec 0 (boss_alert_level (st w))); [lia | exact Hc].
Qed.

Lemma calm_invocation (others : list op) (t : tool) (w : world) :
  calm w -> calm (snd (run_tool others t w)).
Proof.
  intros Hc. pose proof Hc as (Ha & Hl & _).
  assert (Eg : after_gate others w = w).
  { unfold after_gate. rewrite penalty_run, Hl. reflexivity. }
  unfold run_tool.
  destruct (Z.lt_ge_cases (tool_max t) (tool_min t)) as [Hlt | Hle].
  - unfold execute_break_tool.
    rewrite (bind_ok _ _ _ _ _ (penalty_returns others w)), Eg.
    rewrite (bind_raises _ _ _ _ _ (reduce_stress_raises _ _ w Hlt)).
    exact Hc.
  - destruct (execute_break_tool_trace others (tool_name t) (tool_min t)
                (tool_max t) (tool_summary t) (tool_messages t) w Hle)
      as (Hst & tail & Htail & Ht).
    rewrite Eg in Hst, Ht.
    pose proof (calm_roll _ (calm_reduce_stress (tool_min t) (tool_max t) w Hc))
      as (Ha3 & Hl3 & _).
    rewrite (calm_never_fires _
               (proj1 (calm_reduce_stress (tool_min t) (tool_max t) w Hc)))
      in Ht.
    destruct (snd (execute_break_tool others (tool_name t) (tool_min t)
                     (tool_max t) (tool_summary t) (tool_messages t) w))
      as [a' g' t'].
    simpl in Hst, Ht. subst a' t'.
    apply calm_extend; try assumption.
    intros e [<- | [<- | [<- | Hin]]];
      try (split; [reflexivity | discriminate]).
    pose proof (steps_nil_in tail e Htail Hin) as Hk.
    destruct e; try discriminate. split; [reflexivity | discriminate].
Qed.

Lemma calm_serve (reqs : list request) (w : world) :
  calm w -> Forall calm (serve reqs w).
Proof.
  revert w. induction reqs as [| r reqs IH]; intros w Hc; simpl;
    constructor.
  - destruct r as [o | others t]; simpl;
      [now apply calm_step | now apply calm_invocation].
  - apply IH. destruct r as [o | others t]; simpl;
      [now apply calm_step | now apply calm_invocation].
Qed.

(** C9: a state manager constructed with alertness 0: after each of any
    number of invocations of the executor (rounds of the timers between them
    or not, any tape, any tool arguments), the alert level is 0, no roll has
    ever raised it and no invocation has ever slept at the penalty gate. *)
Theorem alertness_zero_never_alerts (cooldown : Z) (g : rng)
    (reqs : list request) :
  Forall (fun w => boss_alert_level (st w) = 0
                   /\ ~ In (EvAlertRoll true) (trace w)
                   /\ forall s, ~ In (EvSleep s) (trace w))
    (serve reqs (boot 0 cooldown g)).
Proof.
  assert (Hc : calm (boot 0 cooldown g)).
  { unfold calm. simpl. repeat split; auto. }
  apply Forall_impl with (P := calm); [| now apply calm_serve].
  intros w (_ & Hl & Hs & Hr). auto.
Qed.

(** ** The rendered text *)

Lemma string_app_assoc (a b c : string) :
  ((a ++ b) ++ c = a ++ (b ++ c))%string.
Proof. induction a as [| x a IH]; simpl; [reflexivity | now rewrite IH]. Qed.

Lemma has_lf_app (a b : string) :
  has_lf (a ++ b)%string = has_lf a || has_lf b.
Proof.
  induction a as [| x a IH]; simpl; [reflexivity |].
  now rewrite IH, orb_assoc.
Qed.

Lemma lines_not_nil (s : string) : lines s <> [].
Proof.
  induction s as [| c s IH]; simpl; [discriminate |].
  destruct (Ascii.eqb c LF); [discriminate |].
  destruct (lines s); discriminate.
Qed.

Lemma lines_no_lf (s : string) : has_lf s = false -> lines s = [s].
Proof.
  induction s as [| c s IH]; simpl; intros H; [reflexivity |].
  apply orb_false_elim in H as [Hc Hs].
  now rewrite Hc, (IH Hs).
Qed.

(** A line feed cuts the lines of a text in two lists. *)
Lemma lines_app_lf (a b : string) :
  lines (a ++ String LF b)%string = lines a ++ lines b.
Proof.
  induction a as [| c a IH]; simpl.
  - reflexivity.
  - rewrite IH. destruct (Ascii.eqb c LF); [reflexivity |].
    pose proof (lines_not_nil a) as Hne.
    destruct (lines a) as [| l ls]; [congruence | reflexivity].
Qed.

Lemma last_two_app {A} (l : list A) (x y : A) :
  last_two (l ++ [x; y]) = [x; y].
Proof.
  unfold last_two. rewrite length_app. simpl.
  replace (List.length l + 2 - 2)%nat with (List.length l + 0)%nat by lia.
  now rewrite skipn_app, Nat.add_0_r, skipn_all, Nat.sub_diag.
Qed.

Lemma digits_no_lf (d : Decimal.uint) :
  has_lf (NilEmpty.string_of_uint d) = false.
Proof. induction d; simpl; auto. Qed.

(** [str] of an integer is a sign and digits. *)
Lemma decimal_no_lf (n : Z) : has_lf (decimal n) = false.
Proof.
  unfold decimal, NilZero.string_of_int, NilZero.string_of_uint.
  destruct (Z.to_int n) as [d | d]; destruct d; simpl;
    try reflexivity; apply digits_no_lf.
Qed.

Lemma response_text_lines (summary creative : string) (s a : Z) :
  last_two (lines (response_text summary creative (decimal s) (decimal a)))
  = [("Stress Level: " ++ decimal s)%string;
     ("Boss Alert Level: " ++ decimal a)%string].
Proof.
  pose (l1 := ("Stress Level: " ++ decimal s)%string).
  pose (l2 := ("Boss Alert Level: " ++ decimal a)%string).
  assert (E : response_text summary creative (decimal s) (decimal a)
              = (((creative ++ nl ++ nl ++ "Break Summary: " ++ summary)
                  ++ String LF l1) ++ String LF l2)%string).
  { unfold response_text, l1, l2, nl. rewrite !string_app_assoc.
    reflexivity. }
  assert (H1 : lines l1 = [l1]).
  { apply lines_no_lf. unfold l1.
    rewrite has_lf_app, decimal_no_lf. reflexivity. }
  assert (H2 : lines l2 = [l2]).
  { apply lines_no_lf. unfold l2.
    rewrite has_lf_app, decimal_no_lf. reflexivity. }
  rewrite E, !lines_app_lf, H1, H2, <- app_assoc.
  apply last_two_app.
Qed.

Lemma break_tools_well_formed :
  Forall (fun t => tool_min t <= tool_max t /\ tool_messages t <> [])
    break_tools.
Proof. repeat constructor; simpl; try lia; discriminate. Qed.


(** An invocation on gauges within their bounds, with the others keeping
    them so, a range from 0 or above and a message to choose: what it returns
    and the world it leaves. *)
Lemma bounded_invocation_run (others : list op) (name : string) (lo hi : Z)
    (summary : string) (msgs : list string) (w : world) :
  gauges_bounded (st w) -> Forall valid_op others ->
  0 <= lo <= hi -> msgs <> [] ->
  let w1 := after_gate others w in
  let w2 := snd (reduce_stress lo hi w1) in
  let w3 := snd (maybe_increase_boss_alert w2) in
  exists msg line,
    In msg msgs
    /\ execute_break_tool others name lo hi summary msgs w =
         (inr [mkContent "text"
                 (response_text summary
                    (if alert_fires w2 then (msg ++ noticed)%string else msg)
                    (decimal (stress_level (st w3)))
                    (decimal (boss_alert_level (st w3))))],
          mkWorld (st w3) (gen (advance w3))
            (trace w3 ++ [EvGetState (stress_level (st w3))
                            (boss_alert_level (st w3));
                          EvStderr line])).
Proof.
  intros Hb Hv Hr Hne w1 w2 w3.
  destruct (gauges_renderable _ (invocation_steps_bounded others lo hi w
                                   Hb Hv Hr)) as [Hs Ha].
  exact (execute_break_tool_run others name lo hi summary msgs w
           (proj2 Hr) Hne Hs Ha).
Qed.



Example take_a_break_last_lines :
  match fst (run_tool [] take_a_break (sample_world 50 0 50 9)) with
  | inr [item] =>
      content_type item = "text"
      /\ last_two (lines (content_text item))
         = ["Stress Level: 31"; "Boss Alert Level: 1"]
  | _ => False
  end.
Proof. vm_compute. split; reflexivity. Qed.

(** ** What the executor returns *)

(** C1, as the code has it: an invocation on gauges within their bounds,
    with a range from 0 or above that is not empty and at least one message,
    returns a list of one ["text"] item.  Its text is one of the messages,
    followed by the notice exactly when the roll raised the alert, then the
    activity summary, the final stress and the final alert level.  The
    reduction that was drawn is in the trace of the invocation and nowhere in
    the value returned. *)
Theorem executor_returns_text (others : list op) (name : string) (lo hi : Z)
    (summary : string) (msgs : list string) (w : world) :
  gauges_bounded (st w) -> Forall valid_op others ->
  0 <= lo <= hi -> msgs <> [] ->
  let out := execute_break_tool others name lo hi summary msgs w in
  let stress := stress_level (st (snd out)) in
  let alert := boss_alert_level (st (snd out)) in
  exists msg r raised line,
    In msg msgs
    /\ trace (snd out) =
         trace (after_gate others w)
         ++ [EvReduceStress r; EvAlertRoll raised; EvGetState stress alert;
             EvStderr line]
    /\ str stress = inr (decimal stress)
    /\ str alert = inr (decimal alert)
    /\ fst out =
         inr [mkContent "text"
                ((if raised then msg ++ noticed else msg) ++ nl ++ nl
                 ++ "Break Summary: " ++ summary ++ nl
                 ++ "Stress Level: " ++ decimal stress ++ nl
                 ++ "Boss Alert Level: " ++ decimal alert)%string].
Proof.
  intros Hb Hv Hr Hne out stress alert.
  destruct (bounded_invocation_run others name lo hi summary msgs w
              Hb Hv Hr Hne) as (msg & line & Hin & E).
  destruct (gauges_renderable _ (invocation_steps_bounded others lo hi w
                                   Hb Hv Hr)) as [Hs Ha].
  subst stress alert out. rewrite E. simpl.
  exists msg, (reduction_draw lo hi (after_gate others w)).
  eexists. exists line. split; [exact Hin |].
  split; [| split; [now apply str_renderable |
                    split; [now apply str_renderable | reflexivity]]].
  rewrite maybe_increase_boss_alert_run. simpl.
  rewrite (reduce_stress_run lo hi _ (proj2 Hr)). simpl.
  rewrite <- !app_assoc. reflexivity.
Qed.

Lemma executor_returns_text_witness :
  gauges_bounded (st (sample_world 50 0 50 9))
  /\ Forall valid_op []
  /\ 0 <= 10 <= 30
  /\ tool_messages take_a_break <> []
  /\ let out := run_tool [] take_a_break (sample_world 50 0 50 9) in
     exists msg r raised line,
       In msg (tool_messages take_a_break)
       /\ trace (snd out) =
            [EvReduceStress r; EvAlertRoll raised; EvGetState 31 1;
             EvStderr line]
       /\ str 31 = inr (decimal 31)
       /\ str 1 = inr (decimal 1)
       /\ fst out =
            inr [mkContent "text"
                   ((if raised then msg ++ noticed else msg) ++ nl ++ nl
                    ++ "Break Summary: Took a brief general break" ++ nl
                    ++ "Stress Level: 31" ++ nl
                    ++ "Boss Alert Level: 1")%string].
Proof.
  assert (Hb : gauges_bounded (st (sample_world 50 0 50 9))).
  { unfold gauges_bounded, stress_bounded, alert_bounded. simpl. lia. }
  split; [exact Hb |]. split; [constructor |].
  split; [lia |]. split; [discriminate |].
  apply (executor_returns_text [] (tool_name take_a_break) 10 30
           (tool_summary take_a_break) (tool_messages take_a_break)
           (sample_world 50 0 50 9));
    [exact Hb | constructor | lia | discriminate].
Defined.

(** C1, as it is written, fails.  Three invocations of [take_a_break] on
    stress 5, alert level 0, alertness 0, which differ in the tape only.  The
    first two draw the reductions 10 and 30 and return the same value: the
    reduction cannot be read off the value returned.  The first and the third
    agree on the reduction, the roll and the final gauges, have the same
    trace, and return different values: the flavour text is part of it. *)
Lemma executor_result_is_not_the_bundle :
  let run cells :=
    run_tool [] take_a_break
      (mkWorld (mkAgent 5 0 0 300) (tape_of cells) []) in
  fst (run [0; 0; 0]) = fst (run [20; 0; 0])
  /\ In (EvReduceStress 10) (trace (snd (run [0; 0; 0])))
  /\ In (EvReduceStress 30) (trace (snd (run [20; 0; 0])))
  /\ trace (snd (run [0; 0; 0])) = trace (snd (run [0; 0; 1]))
  /\ st (snd (run [0; 0; 0])) = st (snd (run [0; 0; 1]))
  /\ fst (run [0; 0; 0]) <> fst (run [0; 0; 1]).
Proof.
  vm_compute. repeat split; auto; discriminate.
Qed.

(** ** Configuration *)

(** C2, as it is written, fails: the constructor stores an alertness of 150
    and a cooldown of -5 and returns the state manager. *)
Lemma constructor_checks_nothing :
  ~ (0 <= 150 <= 100)
  /\ -5 <= 0
  /\ boss_alertness (__init__ 150 (-5)) = 150
  /\ boss_alertness_cooldown (__init__ 150 (-5)) = -5
  /\ stress_level (__init__ 150 (-5)) = 50
  /\ boss_alert_level (__init__ 150 (-5)) = 0.
Proof. repeat split; try reflexivity; lia. Qed.

(** C2, as the code has it: a command line whose alertness (50 when absent)
    is outside [0..100] or whose cooldown (300 when absent) is not positive is
    refused by [parse_arguments] with its error message, and the entry point
    makes no state manager; the constructor itself checks nothing. *)
Theorem invalid_command_line_refused (v : argv) :
  ~ (0 <= default 50 (opt_boss_alertness v) <= 100)
  \/ default 300 (opt_boss_alertness_cooldown v) <= 0 ->
  exists msg, parse_arguments v = inl msg /\ main v = inl msg.
Proof.
  intros H. unfold main, parse_arguments. simpl.
  destruct (Z.leb_spec 0 (default 50 (opt_boss_alertness v)));
    destruct (Z.leb_spec (default 50 (opt_boss_alertness v)) 100); simpl;
    try (eexists; split; reflexivity).
  destruct (Z.leb_spec (default 300 (opt_boss_alertness_cooldown v)) 0);
    [eexists; split; reflexivity | lia].
Qed.

Lemma invalid_command_line_refused_witness :
  (~ (0 <= default 50 (opt_boss_alertness (mkArgv (Some 150) None true))
      <= 100)
   \/ default 300 (opt_boss_alertness_cooldown (mkArgv (Some 150) None true))
      <= 0)
  /\ exists msg,
       parse_arguments (mkArgv (Some 150) None true) = inl msg
       /\ main (mkArgv (Some 150) None true) = inl msg.
Proof.
  assert (H : ~ (0 <= default 50 (opt_boss_alertness
                                    (mkArgv (Some 150) None true)) <= 100)
              \/ default 300 (opt_boss_alertness_cooldown
                                (mkArgv (Some 150) None true)) <= 0).
  { left. simpl. lia. }
  split; [exact H |].
  apply (invalid_command_line_refused (mkArgv (Some 150) None true) H).
Defined.

(** What the entry point constructs has a valid configuration and the initial
    gauges. *)
Lemma main_constructs_valid (v : argv) (a : agent) :
  main v = inr a ->
  0 <= boss_alertness a <= 100
  /\ 0 < boss_alertness_cooldown a
  /\ stress_level a = 50 /\ boss_alert_level a = 0.
Proof.
  unfold main, parse_arguments. simpl.
  destruct (Z.leb_spec 0 (default 50 (opt_boss_alertness v)));
    destruct (Z.leb_spec (default 50 (opt_boss_alertness v)) 100); simpl;
    try discriminate.
  destruct (Z.leb_spec (default 300 (opt_boss_alertness_cooldown v)) 0);
    [discriminate |].
  intros E. inversion E; subst; simpl. lia.
Qed.

(** * Further properties of the code *)

(** ** The command line *)

(** X1: [parse_arguments] returns arguments exactly for the command lines
    whose alertness is within [0..100] and whose cooldown is positive, and
    the arguments are then the values given, 50 and 300 standing for the
    absent ones. *)
Theorem parse_arguments_accepts (v : argv) (a : args) :
  parse_arguments v = inr a <->
  (0 <= default 50 (opt_boss_alertness v) <= 100
   /\ 0 < default 300 (opt_boss_alertness_cooldown v)
   /\ a = mkArgs (default 50 (opt_boss_alertness v))
            (default 300 (opt_boss_alertness_cooldown v)) (opt_server v)).
Proof.
  unfold parse_arguments. simpl.
  destruct (Z.leb_spec 0 (default 50 (opt_boss_alertness v)));
    destruct (Z.leb_spec (default 50 (opt_boss_alertness v)) 100); simpl;
    try (split; [discriminate | lia]).
  destruct (Z.leb_spec (default 300 (opt_boss_alertness_cooldown v)) 0).
  - split; [discriminate | lia].
  - split.
    + intros E. inversion E. repeat split; lia.
    + intros (_ & _ & ->). reflexivity.
Qed.

(** X2: the alertness is checked first: when it is out of range the message
    is the one about the alertness, whatever the cooldown; the message about
    the cooldown is for a cooldown that is not positive next to an alertness
    in range. *)
Theorem parse_arguments_messages (v : argv) :
  (~ (0 <= default 50 (opt_boss_alertness v) <= 100) ->
   parse_arguments v = inl "--boss_alertness must be between 0 and 100")
  /\ (0 <= default 50 (opt_boss_alertness v) <= 100 ->
      default 300 (opt_boss_alertness_cooldown v) <= 0 ->
      parse_arguments v = inl "--boss_alertness_cooldown must be positive").
Proof.
  unfold parse_arguments. simpl.
  destruct (Z.leb_spec 0 (default 50 (opt_boss_alertness v)));
    destruct (Z.leb_spec (default 50 (opt_boss_alertness v)) 100); simpl;
    (split; [intros; try reflexivity; lia |]); intros; try lia.
  destruct (Z.leb_spec (default 300 (opt_boss_alertness_cooldown v)) 0);
    [reflexivity | lia].
Qed.

Lemma parse_arguments_messages_witness :
  ~ (0 <= default 50 (opt_boss_alertness (mkArgv (Some (-1)) (Some 0) false))
     <= 100)
  /\ parse_arguments (mkArgv (Some (-1)) (Some 0) false)
     = inl "--boss_alertness must be between 0 and 100"
  /\ 0 <= default 50 (opt_boss_alertness (mkArgv None (Some 0) false)) <= 100
  /\ default 300 (opt_boss_alertness_cooldown (mkArgv None (Some 0) false))
     <= 0
  /\ parse_arguments (mkArgv None (Some 0) false)
     = inl "--boss_alertness_cooldown must be positive".
Proof.
  assert (H1 : ~ (0 <= default 50 (opt_boss_alertness
                                     (mkArgv (Some (-1)) (Some 0) false))
                  <= 100)) by (simpl; lia).
  assert (H2 : 0 <= default 50 (opt_boss_alertness
                                  (mkArgv None (Some 0) false)) <= 100)
    by (simpl; lia).
  assert (H3 : default 300 (opt_boss_alertness_cooldown
                              (mkArgv None (Some 0) false)) <= 0)
    by (simpl; lia).
  split; [exact H1 |].
  split; [exact (proj1 (parse_arguments_messages _) H1) |].
  split; [exact H2 |]. split; [exact H3 |].
  exact (proj2 (parse_arguments_messages _) H2 H3).
Defined.

(** ** Invocations that raise *)

(** X3: an invocation with [min > max] raises [ValueError] out of the
    executor, after the penalty gate: called below level 5 it leaves the
    world as it was; called at level 5 or above it has slept its 20 seconds
    first.  No reduction, roll or snapshot takes place. *)
Theorem execute_empty_range (others : list op) (name : string) (lo hi : Z)
    (summary : string) (msgs : list string) (w : world) :
  hi < lo ->
  let out := execute_break_tool others name lo hi summary msgs w in
  fst out = inl ValueError
  /\ snd out = after_gate others w
  /\ (boss_alert_level (st w) < 5 -> snd out = w)
  /\ (5 <= boss_alert_level (st w) ->
      sleeps (trace (snd out)) = sleeps (trace w) ++ [20]
      /\ st (snd out) = st (run_ops others (asleep w))).
Proof.
  intros Hlt out.
  assert (E : out = (inl ValueError, after_gate others w)).
  { unfold out, execute_break_tool.
    rewrite (bind_ok _ _ _ _ _ (penalty_returns others w)).
    now rewrite (bind_raises _ _ _ _ _ (reduce_stress_raises _ _ _ Hlt)). }
  rewrite E. simpl. split; [reflexivity |]. split; [reflexivity |].
  unfold after_gate. rewrite penalty_run.
  destruct (Z.leb_spec 5 (boss_alert_level (st w))); split; intros; try lia.
  - simpl. split; [| reflexivity].
    clear. induction (trace w) as [| e t IH]; simpl; [reflexivity |].
    destruct e; simpl; now rewrite ?IH.
  - reflexivity.
Qed.

Lemma execute_empty_range_witness :
  3 < 5
  /\ fst (execute_break_tool [] "x" 5 3 "s" ["m"] (sample_world 50 5 50 0))
     = inl ValueError
  /\ sleeps (trace (snd (execute_break_tool [] "x" 5 3 "s" ["m"]
                           (sample_world 50 5 50 0)))) = [20].
Proof.
  split; [lia |].
  destruct (execute_empty_range [] "x" 5 3 "s" ["m"]
              (sample_world 50 5 50 0))
    as (Hr & _ & _ & Hs); [lia |].
  split; [exact Hr |]. apply Hs. simpl. lia.
Defined.

(** X4: an invocation with a range that is not empty and an empty list of
    messages raises [IndexError] when the work is done: the stress has been
    reduced, the alert rolled and the snapshot taken, and the gauges stay as
    these steps left them. *)
Theorem execute_no_messages (others : list op) (name : string) (lo hi : Z)
    (summary : string) (w : world) :
  lo <= hi ->
  let w1 := after_gate others w in
  let r := reduction_draw lo hi w1 in
  let w3 := snd (maybe_increase_boss_alert (snd (reduce_stress lo hi w1))) in
  let out := execute_break_tool others name lo hi summary [] w in
  fst out = inl IndexError
  /\ st (snd out) = st w3
  /\ stress_level (st (snd out)) = Z.max 0 (stress_level (st w1) - r)
  /\ trace (snd out) =
       trace w1 ++ [EvReduceStress r;
                    EvAlertRoll (alert_fires (snd (reduce_stress lo hi w1)));
                    EvGetState (stress_level (st w3))
                      (boss_alert_level (st w3))].
Proof.
  intros Hle w1 r w3 out.
  assert (E2 : reduce_stress lo hi w1
               = (inr r, snd (reduce_stress lo hi w1))).
  { now rewrite (reduce_stress_run lo hi w1 Hle). }
  assert (E3 : maybe_increase_boss_alert (snd (reduce_stress lo hi w1))
               = (inr (alert_fires (snd (reduce_stress lo hi w1))), w3)).
  { unfold w3. now rewrite maybe_increase_boss_alert_run. }
  assert (E : out = (inl IndexError, snd (get_state w3))).
  { unfold out, execute_break_tool.
    rewrite (bind_ok _ _ _ _ _ (penalty_returns others w)). fold w1.
    rewrite (bind_ok _ _ _ _ _ E2), (bind_ok _ _ _ _ _ E3).
    now rewrite (bind_ok _ _ _ _ _ (get_state_run w3)). }
  rewrite E. simpl. split; [reflexivity |]. split; [reflexivity |].
  unfold w3. rewrite maybe_increase_boss_alert_run. simpl.
  rewrite (reduce_stress_run lo hi w1 Hle). simpl.
  split.
  - match goal with
    | |- context [if alert_fires ?x then _ else _] =>
        destruct (alert_fires x); reflexivity
    end.
  - rewrite <- !app_assoc. reflexivity.
Qed.

Lemma execute_no_messages_witness :
  10 <= 30
  /\ fst (execute_break_tool [] "x" 10 30 "s" [] (sample_world 50 0 100 9))
     = inl IndexError
  /\ st (snd (execute_break_tool [] "x" 10 30 "s" []
                (sample_world 50 0 100 9)))
     = mkAgent 31 1 100 300.
Proof.
  split; [lia |].
  destruct (execute_no_messages [] "x" 10 30 "s" (sample_world 50 0 100 9))
    as (Hr & Hst & _); [lia |].
  split; [exact Hr | exact Hst].
Defined.

(** ** What an invocation does to the gauges *)

Lemma alert_fires_after_reduction (lo hi : Z) (w : world) :
  lo <= hi ->
  alert_fires (snd (reduce_stress lo hi w)) =
    (alert_draw (advance w) <=? boss_alertness (st w))
    && (boss_alert_level (st w) <? 5).
Proof.
  intros Hle. now rewrite (reduce_stress_run lo hi w Hle).
Qed.

Lemma after_gate_below_five (others : list op) (w : world) :
  boss_alert_level (st w) < 5 -> after_gate others w = w.
Proof.
  intros H. unfold after_gate. rewrite penalty_run.
  destruct (Z.leb_spec 5 (boss_alert_level (st w))); [lia | reflexivity].
Qed.

(** X5: an invocation called below level 5 with a range that is not empty,
    in one piece: the stress becomes [max 0 (s - r)] for the reduction [r]
    drawn from the first cell, within the range; the alert level goes up by 1
    when the draw of the second cell is at most the alertness and stays
    otherwise; the configuration is kept.  This holds whether the list of
    messages is empty or not. *)
Theorem unpenalised_invocation (others : list op) (name : string)
    (lo hi : Z) (summary : string) (msgs : list string) (w : world) :
  boss_alert_level (st w) < 5 -> lo <= hi ->
  let w' := snd (execute_break_tool others name lo hi summary msgs w) in
  let r := reduction_draw lo hi w in
  lo <= r <= hi
  /\ stress_level (st w') = Z.max 0 (stress_level (st w) - r)
  /\ boss_alert_level (st w') =
       (if alert_draw (advance w) <=? boss_alertness (st w)
        then boss_alert_level (st w) + 1
        else boss_alert_level (st w))
  /\ boss_alertness (st w') = boss_alertness (st w)
  /\ boss_alertness_cooldown (st w') = boss_alertness_cooldown (st w).
Proof.
  intros H5 Hle w' r.
  destruct (execute_break_tool_trace others name lo hi summary msgs w Hle)
    as (Hst & _).
  fold w' in Hst. rewrite Hst, (after_gate_below_five others w H5).
  rewrite maybe_increase_boss_alert_run. simpl.
  rewrite (alert_fires_after_reduction lo hi w Hle).
  rewrite (reduce_stress_run lo hi w Hle). simpl.
  destruct (randint_in_range lo hi w Hle) as [_ Hr].
  split; [exact Hr |].
  destruct (Z.ltb_spec (boss_alert_level (st w)) 5); [| lia].
  rewrite andb_true_r.
  destruct (alert_draw (advance w) <=? boss_alertness (st w)); simpl; auto.
Qed.

Lemma unpenalised_invocation_witness :
  boss_alert_level (st (sample_world 50 4 100 9)) < 5
  /\ 10 <= 30
  /\ st (snd (run_tool [] take_a_break (sample_world 50 4 100 9)))
     = mkAgent 31 5 100 300.
Proof.
  split; [simpl; lia |]. split; [lia |].
  destruct (unpenalised_invocation [] (tool_name take_a_break) 10 30
              (tool_summary take_a_break) (tool_messages take_a_break)
              (sample_world 50 4 100 9))
    as (_ & Hs & Ha & Hn & Hc); [simpl; lia | lia |].
  unfold run_tool. simpl tool_min. simpl tool_max.
  destruct (st (snd (execute_break_tool [] (tool_name take_a_break) 10 30
                       (tool_summary take_a_break)
                       (tool_messages take_a_break)
                       (sample_world 50 4 100 9))))
    as [s a n c].
  simpl in Hs, Ha, Hn, Hc. now subst.
Defined.

(** ** The eight tools *)

Lemma well_formed_returns (others : list op) (t : tool) (w : world) :
  gauges_bounded (st w) -> Forall valid_op others ->
  well_formed t -> 0 <= tool_min t ->
  let w1 := after_gate others w in
  let r := reduction_draw (tool_min t) (tool_max t) w1 in
  exists text line,
    fst (run_tool others t w) = inr [mkContent "text" text]
    /\ tool_min t <= r <= tool_max t
    /\ exists raised s a,
         trace (snd (run_tool others t w)) =
           trace w1 ++ [EvReduceStress r; EvAlertRoll raised;
                        EvGetState s a; EvStderr line].
Proof.
  intros Hb Hv [Hle Hne] Hlo w1 r.
  destruct (bounded_invocation_run others (tool_name t) (tool_min t)
              (tool_max t) (tool_summary t) (tool_messages t) w Hb Hv
              (conj Hlo Hle) Hne)
    as (msg & line & _ & E).
  unfold run_tool. rewrite E. simpl.
  eexists. exists line. split; [reflexivity |].
  destruct (randint_in_range (tool_min t) (tool_max t) w1 Hle) as [_ Hr].
  split; [exact Hr |].
  rewrite maybe_increase_boss_alert_run. simpl.
  rewrite (reduce_stress_run _ _ _ Hle). simpl.
  do 3 eexists. rewrite <- !app_assoc. reflexivity.
Qed.

(** X6: none of the eight break tools raises on gauges within their bounds:
    on every such world, whatever operations with valid ranges the others
    run during a penalty, each returns one ["text"] item, after a reduction,
    a roll, a snapshot and a log line in this order; the reduction is within
    the range of the tool, and so between 5 and 40. *)
Theorem break_tools_never_raise :
  Forall
    (fun t =>
       forall (others : list op) (w : world),
         gauges_bounded (st w) -> Forall valid_op others ->
         exists text line r raised s a,
           fst (run_tool others t w) = inr [mkContent "text" text]
           /\ trace (snd (run_tool others t w)) =
                trace (after_gate others w)
                ++ [EvReduceStress r; EvAlertRoll raised; EvGetState s a;
                    EvStderr line]
           /\ tool_min t <= r <= tool_max t
           /\ 5 <= r <= 40)
    break_tools.
Proof.
  assert (H : Forall (fun t => well_formed t
                               /\ 5 <= tool_min t /\ tool_max t <= 40)
                break_tools).
  { repeat constructor; simpl; try lia; discriminate. }
  apply (Forall_impl _ (P := fun t => well_formed t
                                      /\ 5 <= tool_min t /\ tool_max t <= 40));
    [| exact H].
  intros t (Hwf & Hlo & Hhi) others w Hb Hv.
  destruct (well_formed_returns others t w Hb Hv Hwf)
    as (text & line & Hret & Hr & raised & s & a & Ht); [lia |].
  exists text, line, (reduction_draw (tool_min t) (tool_max t)
                        (after_gate others w)), raised, s, a.
  repeat split; try assumption; lia.
Qed.

Lemma break_tools_never_raise_witness :
  In deep_thinking break_tools
  /\ gauges_bounded (st (sample_world 100 5 50 3))
  /\ Forall valid_op [OpStressTick; OpAlertTick]
  /\ exists text line r raised s a,
       fst (run_tool [OpStressTick; OpAlertTick] deep_thinking
              (sample_world 100 5 50 3))
       = inr [mkContent "text" text]
       /\ trace (snd (run_tool [OpStressTick; OpAlertTick] deep_thinking
                        (sample_world 100 5 50 3))) =
            trace (after_gate [OpStressTick; OpAlertTick]
                     (sample_world 100 5 50 3))
            ++ [EvReduceStress r; EvAlertRoll raised; EvGetState s a;
                EvStderr line]
       /\ tool_min deep_thinking <= r <= tool_max deep_thinking
       /\ 5 <= r <= 40.
Proof.
  assert (Hin : In deep_thinking break_tools) by (simpl; tauto).
  assert (Hb : gauges_bounded (st (sample_world 100 5 50 3))).
  { unfold gauges_bounded, stress_bounded, alert_bounded. simpl. lia. }
  assert (Hv : Forall valid_op [OpStressTick; OpAlertTick]).
  { repeat constructor. }
  split; [exact Hin |]. split; [exact Hb |]. split; [exact Hv |].
  exact (proj1 (Forall_forall _ _) break_tools_never_raise deep_thinking Hin
           [OpStressTick; OpAlertTick] (sample_world 100 5 50 3) Hb Hv).
Defined.

(** ** A boss who always notices *)

Lemma quiet_call_level (t : tool) (w : world) :
  100 <= boss_alertness (st w) ->
  well_formed t ->
  boss_alert_level (st w) <= 5 ->
  let w' := serve1 w (Invoke [] t) in
  boss_alert_level (st w') = Z.min 5 (boss_alert_level (st w) + 1)
  /\ boss_alertness (st w') = boss_alertness (st w).
Proof.
  intros Hn [Hle _] H5 w'. unfold w', serve1, run_tool.
  destruct (execute_break_tool_trace [] (tool_name t) (tool_min t)
              (tool_max t) (tool_summary t) (tool_messages t) w Hle)
    as (Hst & _).
  rewrite Hst. clear Hst.
  assert (E1 : st (after_gate [] w) = st w).
  { rewrite after_gate_st. now destruct (5 <=? boss_alert_level (st w)). }
  rewrite maybe_increase_boss_alert_run. simpl.
  rewrite (alert_fires_after_reduction _ _ _ Hle).
  rewrite (reduce_stress_run _ _ _ Hle). simpl. rewrite E1.
  pose proof (alert_draw_range (advance (after_gate [] w))) as Hd.
  destruct (Z.leb_spec (alert_draw (advance (after_gate [] w)))
              (boss_alertness (st w))); [| lia].
  destruct (Z.ltb_spec (boss_alert_level (st w)) 5); simpl; split;
    try reflexivity; lia.
Qed.

(** X7: with an alertness of 100 or more every roll below level 5 raises the
    alert: after [k] invocations of well-formed tools by a quiet server,
    started at a level [l] of at most 5, the level is [min 5 (l + k)].  Five
    invocations from level 0 reach the maximum. *)
Theorem certain_alert_saturates (ts : list tool) (w : world) :
  100 <= boss_alertness (st w) ->
  Forall well_formed ts ->
  boss_alert_level (st w) <= 5 ->
  boss_alert_level (st (fold_left serve1 (quiet_calls ts) w))
  = Z.min 5 (boss_alert_level (st w) + Z.of_nat (List.length ts)).
Proof.
  intros Hn Hwf. revert w Hn.
  induction Hwf as [| t ts Ht _ IH]; intros w Hn H5.
  - simpl. lia.
  - cbn [quiet_calls map fold_left].
    destruct (quiet_call_level t w Hn Ht H5) as [Hl Ha].
    fold (quiet_calls ts). rewrite IH; [| lia | lia].
    rewrite Hl. cbn [List.length]. lia.
Qed.

Lemma certain_alert_saturates_witness :
  100 <= boss_alertness (st (boot 100 300 (constant_tape 0)))
  /\ Forall well_formed [show_meme; show_meme; show_meme; show_meme; show_meme]
  /\ boss_alert_level
       (st (fold_left serve1
              (quiet_calls [show_meme; show_meme; show_meme; show_meme;
                            show_meme])
              (boot 100 300 (constant_tape 0)))) = 5.
Proof.
  assert (Hwf : Forall well_formed
                  [show_meme; show_meme; show_meme; show_meme; show_meme]).
  { repeat constructor; simpl; try lia; discriminate. }
  split; [simpl; lia |]. split; [exact Hwf |].
  rewrite (certain_alert_saturates _ (boot 100 300 (constant_tape 0)));
    [reflexivity | simpl; lia | exact Hwf | simpl; lia].
Defined.

(** ** Rounds of the timers *)

Lemma sleeps_app (t u : list event) : sleeps (t ++ u) = sleeps t ++ sleeps u.
Proof.
  induction t as [| e t IH]; simpl; [reflexivity |].
  destruct e; simpl; now rewrite ?IH.
Qed.

Lemma increase_round_quiet (rest : list (list op)) (w : world) :
  _auto_increase_stress ([] :: rest) w =
    _auto_increase_stress rest
      (mkWorld
         (if stress_level (st w) <? 100
          then set_stress (Z.min 100 (stress_level (st w) + 1)) (st w)
          else st w)
         (gen w) (trace w ++ [EvSleep 60])).
Proof.
  cbn [_auto_increase_stress].
  rewrite (sleep_suspends 60 []) by (pose proof float_overflow_large; lia).
  unfold suspended, bind, emit, run_ops.
  cbn [fold_left fst snd st gen trace].
  unfold increase_stress_locked, bind, get_agent. cbn [st].
  destruct (stress_level (st w) <? 100); reflexivity.
Qed.

Lemma decrease_round_quiet (rest : list (list op)) (w : world) :
  boss_alertness_cooldown (st w) < float_overflow ->
  _auto_decrease_boss_alert ([] :: rest) w =
    _auto_decrease_boss_alert rest
      (mkWorld
         (if 0 <? boss_alert_level (st w)
          then set_alert (Z.max 0 (boss_alert_level (st w) - 1)) (st w)
          else st w)
         (gen w) (trace w ++ [EvSleep (boss_alertness_cooldown (st w))])).
Proof.
  intros Hc.
  assert (E : _auto_decrease_boss_alert ([] :: rest) w
              = (sleep (boss_alertness_cooldown (st w)) [] ;;;
                 decrease_boss_alert_locked ;;;
                 _auto_decrease_boss_alert rest) w) by reflexivity.
  rewrite E, (sleep_suspends _ [] Hc). clear E.
  unfold suspended, bind, emit, run_ops.
  cbn [fold_left fst snd st gen trace].
  unfold decrease_boss_alert_locked, bind, get_agent. cbn [st].
  destruct (0 <? boss_alert_level (st w)); reflexivity.
Qed.

(** X8: [n] rounds of the drift timer with nobody else at work, on a stress
    of at most 100: the stress becomes [min 100 (s + n)], the other fields are
    kept, and the task has slept [n] times 60 seconds, never raising. *)
Theorem drift_rounds (n : nat) (w : world) :
  stress_level (st w) <= 100 ->
  let out := _auto_increase_stress (repeat [] n) w in
  fst out = inr tt
  /\ st (snd out)
     = set_stress (Z.min 100 (stress_level (st w) + Z.of_nat n)) (st w)
  /\ sleeps (trace (snd out)) = sleeps (trace w) ++ repeat 60 n.
Proof.
  revert w. induction n as [| n IH]; intros w Hs.
  - simpl. rewrite Z.add_0_r, Z.min_r, app_nil_r by lia.
    destruct (st w); auto.
  - cbn [repeat]. cbv zeta. rewrite increase_round_quiet.
    match goal with
    | |- context [_auto_increase_stress _ ?w1] =>
        destruct (IH w1) as (Hr & Hst & Hsl)
    end.
    { destruct (Z.ltb_spec (stress_level (st w)) 100); simpl; lia. }
    rewrite Hr, Hst, Hsl. cbn [st trace].
    split; [reflexivity |]. split.
    + destruct (Z.ltb_spec (stress_level (st w)) 100); unfold set_stress;
        simpl; f_equal; lia.
    + rewrite sleeps_app, <- app_assoc. reflexivity.
Qed.

Lemma drift_rounds_witness :
  stress_level (st (sample_world 98 0 50 0)) <= 100
  /\ st (snd (_auto_increase_stress (repeat [] 5) (sample_world 98 0 50 0)))
     = mkAgent 100 0 50 300
  /\ sleeps (trace (snd (_auto_increase_stress (repeat [] 5)
                           (sample_world 98 0 50 0))))
     = [60; 60; 60; 60; 60].
Proof.
  split; [simpl; lia |].
  destruct (drift_rounds 5 (sample_world 98 0 50 0)) as (_ & Hst & Hsl);
    [simpl; lia |].
  split; [exact Hst | exact Hsl].
Defined.

(** X9: [n] rounds of the cooldown timer with nobody else at work, on an
    alert level that is not negative and with a cooldown that a float holds
    (below [2^1024 - 2^970]): the level becomes [max 0 (l - n)], the other
    fields are kept, and the task has slept [n] times the configured
    cooldown, without raising. *)
Theorem cooldown_rounds (n : nat) (w : world) :
  0 <= boss_alert_level (st w) ->
  boss_alertness_cooldown (st w) < float_overflow ->
  let out := _auto_decrease_boss_alert (repeat [] n) w in
  fst out = inr tt
  /\ st (snd out)
     = set_alert (Z.max 0 (boss_alert_level (st w) - Z.of_nat n)) (st w)
  /\ sleeps (trace (snd out))
     = sleeps (trace w) ++ repeat (boss_alertness_cooldown (st w)) n.
Proof.
  revert w. induction n as [| n IH]; intros w Ha Hc.
  - simpl. rewrite Z.sub_0_r, Z.max_r, app_nil_r by lia.
    destruct (st w); auto.
  - cbn [repeat]. cbv zeta. rewrite (decrease_round_quiet _ _ Hc).
    match goal with
    | |- context [_auto_decrease_boss_alert _ ?w1] =>
        destruct (IH w1) as (Hr & Hst & Hsl)
    end.
    { destruct (Z.ltb_spec 0 (boss_alert_level (st w))); simpl; lia. }
    { destruct (0 <? boss_alert_level (st w)); exact Hc. }
    rewrite Hr, Hst, Hsl. cbn [st trace].
    split; [reflexivity |]. split.
    + destruct (Z.ltb_spec 0 (boss_alert_level (st w))); unfold set_alert;
        simpl; f_equal; lia.
    + rewrite sleeps_app, <- app_assoc.
      destruct (0 <? boss_alert_level (st w)); reflexivity.
Qed.

Lemma cooldown_rounds_witness :
  0 <= boss_alert_level (st (sample_world 50 2 50 0))
  /\ boss_alertness_cooldown (st (sample_world 50 2 50 0)) < float_overflow
  /\ st (snd (_auto_decrease_boss_alert (repeat [] 3)
                (sample_world 50 2 50 0)))
     = mkAgent 50 0 50 300
  /\ sleeps (trace (snd (_auto_decrease_boss_alert (repeat [] 3)
                           (sample_world 50 2 50 0))))
     = [300; 300; 300].
Proof.
  assert (Hc : boss_alertness_cooldown (st (sample_world 50 2 50 0))
               < float_overflow).
  { pose proof float_overflow_large. simpl. lia. }
  split; [simpl; lia |]. split; [exact Hc |].
  destruct (cooldown_rounds 3 (sample_world 50 2 50 0)) as (_ & Hst & Hsl);
    [simpl; lia | exact Hc |].
  split; [exact Hst | exact Hsl].
Defined.

(** ** No lost reduction *)

Lemma total_reduction_app (t u : list event) :
  total_reduction (t ++ u) = total_reduction t + total_reduction u.
Proof.
  induction t as [| e t IH]; simpl; [reflexivity |].
  destruct e; rewrite ?IH; lia.
Qed.

Lemma run_ops_app (ops1 ops2 : list op) (w : world) :
  run_ops (ops1 ++ ops2) w = run_ops ops2 (run_ops ops1 w).
Proof. unfold run_ops. apply fold_left_app. Qed.

(** One operation that is not a round of the drift timer: what it does to
    the stress and to the sum of the reductions reported. *)
Lemma step_stress_account (o : op) (w : world) :
  valid_op o -> o <> OpStressTick -> 0 <= stress_level (st w) ->
  let r := total_reduction (trace (step w o)) - total_reduction (trace w) in
  0 <= r
  /\ stress_level (st (step w o)) = Z.max 0 (stress_level (st w) - r).
Proof.
  intros Hv Hns Hs. unfold step.
  destruct o as [lo hi | | | |]; unfold run_op, bind; try congruence.
  - simpl in Hv. destruct Hv as [Hlo Hle].
    rewrite (reduce_stress_run lo hi w Hle). simpl.
    rewrite total_reduction_app. simpl.
    destruct (randint_in_range lo hi w Hle) as [_ Hr].
    fold (reduction_draw lo hi w) in Hr. split; [lia |]. f_equal. lia.
  - rewrite maybe_increase_boss_alert_run. simpl.
    rewrite total_reduction_app. simpl.
    destruct (alert_fires w); simpl; lia.
  - rewrite get_state_run. simpl. rewrite total_reduction_app. simpl. lia.
  - unfold decrease_boss_alert_locked, bind, get_agent.
    destruct (0 <? boss_alert_level (st w)); simpl; lia.
Qed.

(** X10: reductions are never lost.  Over any sequence of reductions with
    [0 <= min <= max], mixed with rolls, snapshots and rounds of the cooldown
    timer in any order, from a stress that is not negative: the stress at the
    end is [max 0 (s - total)], [total] being the sum of the reductions
    returned along the way. *)
Theorem reductions_add_up (ops : list op) (w : world) :
  Forall valid_op ops ->
  Forall (fun o => o <> OpStressTick) ops ->
  0 <= stress_level (st w) ->
  let total :=
    total_reduction (trace (run_ops ops w)) - total_reduction (trace w) in
  0 <= total
  /\ stress_level (st (run_ops ops w))
     = Z.max 0 (stress_level (st w) - total).
Proof.
  intros Hv Hns Hs. cbv zeta.
  induction ops as [| o ops IH] using rev_ind.
  - simpl. lia.
  - apply Forall_app in Hv as [Hv Ho]. apply Forall_app in Hns as [Hns Hno].
    inversion Ho as [| ? ? Ho' _]; subst.
    inversion Hno as [| ? ? Hno' _]; subst.
    destruct (IH Hv Hns) as [Ht Hst].
    rewrite run_ops_app. cbn [run_ops fold_left].
    fold (run_ops ops w).
    destruct (step_stress_account o (run_ops ops w) Ho' Hno') as [Hr Hs'];
      [lia |].
    rewrite Hs', Hst. split; lia.
Qed.

Lemma reductions_add_up_witness :
  Forall valid_op [OpReduceStress 10 30; OpAlertRoll; OpReduceStress 20 40;
                   OpAlertTick; OpReduceStress 10 30]
  /\ Forall (fun o => o <> OpStressTick)
       [OpReduceStress 10 30; OpAlertRoll; OpReduceStress 20 40;
        OpAlertTick; OpReduceStress 10 30]
  /\ 0 <= stress_level (st (boot 100 300 (constant_tape 5)))
  /\ total_reduction
       (trace (run_ops [OpReduceStress 10 30; OpAlertRoll;
                        OpReduceStress 20 40; OpAlertTick;
                        OpReduceStress 10 30]
                 (boot 100 300 (constant_tape 5)))) = 55
  /\ stress_level
       (st (run_ops [OpReduceStress 10 30; OpAlertRoll;
                     OpReduceStress 20 40; OpAlertTick;
                     OpReduceStress 10 30]
              (boot 100 300 (constant_tape 5)))) = 0.
Proof.
  assert (Hv : Forall valid_op
                 [OpReduceStress 10 30; OpAlertRoll; OpReduceStress 20 40;
                  OpAlertTick; OpReduceStress 10 30]).
  { repeat constructor; simpl; lia. }
  assert (Hn : Forall (fun o => o <> OpStressTick)
                 [OpReduceStress 10 30; OpAlertRoll; OpReduceStress 20 40;
                  OpAlertTick; OpReduceStress 10 30]).
  { repeat constructor; discriminate. }
  split; [exact Hv |]. split; [exact Hn |]. split; [simpl; lia |].
  split; [reflexivity |].
  destruct (reductions_add_up _ (boot 100 300 (constant_tape 5)) Hv Hn)
    as [_ Hst]; [simpl; lia |].
  rewrite Hst. reflexivity.
Defined.

(** ** Small steps, fixed configuration *)

(** X11: no locked operation moves the alert level by more than one unit,
    whatever its arguments and the draw, and none touches the alertness or
    the cooldown. *)
Theorem alert_moves_by_one (o : op) (w : world) :
  boss_alert_level (st w) - 1 <= boss_alert_level (st (step w o))
                              <= boss_alert_level (st w) + 1
  /\ boss_alertness (st (step w o)) = boss_alertness (st w)
  /\ boss_alertness_cooldown (st (step w o)) = boss_alertness_cooldown (st w).
Proof.
  unfold step. destruct o as [lo hi | | | |]; unfold run_op, bind.
  - destruct (Z.lt_ge_cases hi lo) as [Hlt | Hle].
    + rewrite (reduce_stress_raises lo hi w Hlt). simpl. lia.
    + rewrite (reduce_stress_run lo hi w Hle). simpl. lia.
  - rewrite maybe_increase_boss_alert_run. simpl.
    destruct (alert_fires w); simpl; lia.
  - rewrite get_state_run. simpl. lia.
  - unfold increase_stress_locked, bind, get_agent.
    destruct (stress_level (st w) <? 100); simpl; lia.
  - unfold decrease_boss_alert_locked, bind, get_agent.
    destruct (Z.ltb_spec 0 (boss_alert_level (st w))); simpl; lia.
Qed.

Lemma step_config (o : op) (w : world) :
  config_of (st (step w o)) = config_of (st w).
Proof.
  unfold step, config_of.
  destruct o as [lo hi | | | |]; unfold run_op, bind.
  - destruct (Z.lt_ge_cases hi lo) as [Hlt | Hle].
    + now rewrite (reduce_stress_raises lo hi w Hlt).
    + now rewrite (reduce_stress_run lo hi w Hle).
  - rewrite maybe_increase_boss_alert_run. simpl.
    now destruct (alert_fires w).
  - now rewrite get_state_run.
  - unfold increase_stress_locked, bind, get_agent.
    now destruct (stress_level (st w) <? 100).
  - unfold decrease_boss_alert_locked, bind, get_agent.
    now destruct (0 <? boss_alert_level (st w)).
Qed.

Lemma run_ops_config (ops : list op) (w : world) :
  config_of (st (run_ops ops w)) = config_of (st w).
Proof.
  revert w. induction ops as [| o ops IH]; intros w; simpl; [reflexivity |].
  fold (run_ops ops (step w o)). now rewrite IH, step_config.
Qed.

Lemma after_gate_config (others : list op) (w : world) :
  config_of (st (after_gate others w)) = config_of (st w).
Proof.
  rewrite after_gate_st.
  destruct (5 <=? boss_alert_level (st w)); [| reflexivity].
  now rewrite run_ops_config.
Qed.

Lemma execute_raises_value_error (others : list op) (name : string)
    (lo hi : Z) (summary : string) (msgs : list string) (w : world) :
  hi < lo ->
  execute_break_tool others name lo hi summary msgs w
  = (inl ValueError, after_gate others w).
Proof.
  intros Hlt. unfold execute_break_tool.
  rewrite (bind_ok _ _ _ _ _ (penalty_returns others w)).
  now rewrite (bind_raises _ _ _ _ _ (reduce_stress_raises _ _ _ Hlt)).
Qed.

Lemma invocation_config (others : list op) (t : tool) (w : world) :
  config_of (st (snd (run_tool others t w))) = config_of (st w).
Proof.
  unfold run_tool.
  destruct (Z.lt_ge_cases (tool_max t) (tool_min t)) as [Hlt | Hle].
  - rewrite (execute_raises_value_error _ _ _ _ _ _ _ Hlt). simpl.
    apply after_gate_config.
  - destruct (execute_break_tool_trace others (tool_name t) (tool_min t)
                (tool_max t) (tool_summary t) (tool_messages t) w Hle)
      as (Hst & _).
    rewrite Hst, <- (after_gate_config others w).
    rewrite maybe_increase_boss_alert_run. simpl.
    rewrite (reduce_stress_run _ _ _ Hle). simpl.
    match goal with
    | |- context [if alert_fires ?x then _ else _] =>
        destruct (alert_fires x); reflexivity
    end.
Qed.

(** X12: the configuration is fixed at construction: whatever invocations
    (of any tool, well formed or not, penalised or not, with others at work
    during the penalties) and timer rounds are served, after each of them the
    alertness and the cooldown are those the state manager was made with. *)
Theorem configuration_is_immutable (alertness cooldown : Z) (g : rng)
    (reqs : list request) :
  Forall (fun w => boss_alertness (st w) = alertness
                   /\ boss_alertness_cooldown (st w) = cooldown)
    (serve reqs (boot alertness cooldown g)).
Proof.
  assert (H : forall w,
             config_of (st w) = (alertness, cooldown) ->
             Forall (fun w' => config_of (st w') = (alertness, cooldown))
               (serve reqs w)).
  { induction reqs as [| r reqs IH]; intros w Hc; simpl; constructor.
    - destruct r as [o | others t]; simpl;
        [now rewrite step_config | now rewrite invocation_config].
    - apply IH.
      destruct r as [o | others t]; simpl;
        [now rewrite step_config | now rewrite invocation_config]. }
  apply Forall_impl with (P := fun w' => config_of (st w')
                                          = (alertness, cooldown)).
  - intros w' E. unfold config_of in E. now inversion E.
  - apply H. reflexivity.
Qed.

(** ** Rendered gauges can be read back *)

Lemma decimal_inj (n m : Z) : decimal n = decimal m -> n = m.
Proof.
  unfold decimal. intros E. apply DecimalZ.to_int_inj.
  assert (Hn : forall z, Z.to_int z <> Decimal.Pos Decimal.Nil
                         /\ Z.to_int z <> Decimal.Neg Decimal.Nil).
  { intros [| p | p]; simpl; split; try discriminate;
      intros [= H]; now apply (DecimalPos.Unsigned.to_uint_nonnil p). }
  pose proof (NilZero.isi (Z.to_int n) (proj1 (Hn n)) (proj2 (Hn n))) as E1.
  pose proof (NilZero.isi (Z.to_int m) (proj1 (Hn m)) (proj2 (Hn m))) as E2.
  rewrite E in E1. rewrite E1 in E2. now inversion E2.
Qed.

(** X13: the value returned by [format_response] tells the two gauges
    apart from anything the summary and the creative text may hold, line
    feeds and look-alike lines included: a response that two calls both
    return was made from the same stress and the same alert level. *)
Theorem format_response_gauges_inj (summary1 creative1 summary2 creative2
    : string) (s1 a1 s2 a2 : Z) (v : list content) :
  format_response summary1 creative1 s1 a1 = inr v ->
  format_response summary2 creative2 s2 a2 = inr v ->
  s1 = s2 /\ a1 = a2.
Proof.
  intros E1 E2.
  apply format_response_returns in E1 as (_ & _ & ->).
  apply format_response_returns in E2 as (_ & _ & E).
  inversion E as [Et].
  pose proof (response_text_lines summary1 creative1 s1 a1) as L1.
  pose proof (response_text_lines summary2 creative2 s2 a2) as L2.
  rewrite Et in L1. rewrite L1 in L2. inversion L2 as [[Hs Ha]].
  split; now apply decimal_inj.
Qed.

Lemma format_response_gauges_inj_witness :
  format_response "a" "b" 31 1
  = inr [mkContent "text" (response_text "a" "b" "31" "1")]
  /\ 31 = 31 /\ 1 = 1.
Proof.
  assert (E : format_response "a" "b" 31 1
              = inr [mkContent "text" (response_text "a" "b" "31" "1")])
    by reflexivity.
  split; [exact E |].
  exact (format_response_gauges_inj "a" "b" "a" "b" 31 1 31 1 _ E E).
Defined.

(** ** The status report *)

Lemma lines_cons (l rest : string) :
  has_lf l = false -> lines (l ++ String LF rest) = l :: lines rest.
Proof. intros H. now rewrite lines_app_lf, (lines_no_lf l H). Qed.

Lemma stress_status_no_lf (s : Z) : has_lf (stress_status s) = false.
Proof.
  unfold stress_status.
  destruct (80 <=? s); [reflexivity |].
  destruct (60 <=? s); [reflexivity |].
  destruct (40 <=? s); reflexivity.
Qed.

Lemma boss_status_no_lf (b : Z) : has_lf (boss_status b) = false.
Proof.
  unfold boss_status.
  destruct (5 <=? b); [reflexivity |].
  destruct (3 <=? b); [reflexivity |].
  destruct (1 <=? b); reflexivity.
Qed.

Lemma get_status_run (w : world) :
  renderable (stress_level (st w)) -> renderable (boss_alert_level (st w)) ->
  get_status w =
    (inr [mkContent "text"
            (status_text (stress_level (st w)) (boss_alert_level (st w))
               (decimal (stress_level (st w)))
               (decimal (boss_alert_level (st w)))
               (decimal (stress_level (st w)))
               (decimal (boss_alert_level (st w))))],
     mkWorld (st w) (gen w)
       (trace w ++ [EvGetState (stress_level (st w))
                      (boss_alert_level (st w))])).
Proof.
  intros Hs Hb. unfold get_status.
  rewrite (bind_ok _ _ _ _ _ (get_state_run w)).
  cbn [get_stress_level get_boss_alert_level].
  unfold bind, lift, ret.
  now rewrite (str_renderable _ Hs), (str_renderable _ Hb).
Qed.

(** X14: on gauges within their bounds [get_status] does not raise and
    changes neither the gauges nor the generator; it returns one ["text"]
    item of exactly eight lines: the title, an empty line, the two gauges
    with their scale and their status, an empty line, and the same three
    closing lines as a break tool: a summary, ["Stress Level: "] with the
    stress and ["Boss Alert Level: "] with the alert level. *)
Theorem get_status_report (w : world) :
  gauges_bounded (st w) ->
  let s := stress_level (st w) in
  let b := boss_alert_level (st w) in
  exists text,
    get_status w =
      (inr [mkContent "text" text],
       mkWorld (st w) (gen w) (trace w ++ [EvGetState s b]))
    /\ str s = inr (decimal s) /\ str b = inr (decimal b)
    /\ lines text =
         [ "Agent Status Report";
           "";
           ("Stress Level: " ++ decimal s ++ "/100 ("
            ++ stress_status s ++ ")")%string;
           ("Boss Alert Level: " ++ decimal b ++ "/5 ("
            ++ boss_status b ++ ")")%string;
           "";
           "Break Summary: Status check completed";
           ("Stress Level: " ++ decimal s)%string;
           ("Boss Alert Level: " ++ decimal b)%string ].
Proof.
  intros Hg s b.
  destruct (gauges_renderable _ Hg) as [Hs Hb].
  eexists. split; [exact (get_status_run w Hs Hb) |].
  split; [now apply str_renderable |]. split; [now apply str_renderable |].
  fold s b.
  pose (l2 := ("Stress Level: " ++ decimal s ++ "/100 (" ++ stress_status s
               ++ ")")%string).
  pose (l3 := ("Boss Alert Level: " ++ decimal b ++ "/5 (" ++ boss_status b
               ++ ")")%string).
  pose (l6 := ("Stress Level: " ++ decimal s)%string).
  pose (l7 := ("Boss Alert Level: " ++ decimal b)%string).
  assert (H2 : has_lf l2 = false).
  { unfold l2. now rewrite !has_lf_app, decimal_no_lf, stress_status_no_lf. }
  assert (H3 : has_lf l3 = false).
  { unfold l3. now rewrite !has_lf_app, decimal_no_lf, boss_status_no_lf. }
  assert (H6 : has_lf l6 = false).
  { unfold l6. now rewrite has_lf_app, decimal_no_lf. }
  assert (H7 : has_lf l7 = false).
  { unfold l7. now rewrite has_lf_app, decimal_no_lf. }
  match goal with
  | |- lines ?t = _ =>
      replace t with
        ("Agent Status Report" ++ String LF
           ("" ++ String LF
              (l2 ++ String LF
                 (l3 ++ String LF
                    ("" ++ String LF
                       ("Break Summary: Status check completed" ++ String LF
                          (l6 ++ String LF l7)))))))%string
  end.
  - rewrite !lines_cons by (assumption || reflexivity).
    now rewrite (lines_no_lf l7 H7).
  - unfold status_text, l2, l3, l6, l7, nl. rewrite !string_app_assoc.
    reflexivity.
Qed.

Lemma get_status_report_witness :
  gauges_bounded (st (sample_world 85 5 50 0))
  /\ exists text,
       get_status (sample_world 85 5 50 0) =
         (inr [mkContent "text" text],
          mkWorld (st (sample_world 85 5 50 0)) (gen (sample_world 85 5 50 0))
            [EvGetState 85 5])
       /\ str 85 = inr (decimal 85) /\ str 5 = inr (decimal 5)
       /\ lines text =
            [ "Agent Status Report";
              "";
              "Stress Level: 85/100 (CRITICAL - Need a break ASAP!)";
              "Boss Alert Level: 5/5 (MAXIMUM - Every action has 20s delay!)";
              "";
              "Break Summary: Status check completed";
              "Stress Level: 85";
              "Boss Alert Level: 5" ].
Proof.
  assert (Hb : gauges_bounded (st (sample_world 85 5 50 0))).
  { unfold gauges_bounded, stress_bounded, alert_bounded. simpl. lia. }
  split; [exact Hb |].
  exact (get_status_report (sample_world 85 5 50 0) Hb).
Defined.

Lemma sleeps_not_longer (t : list event) : sleeps t <> sleeps t ++ [20].
Proof.
  intros E. apply (f_equal (@List.length Z)) in E.
  rewrite length_app in E. simpl in E. lia.
Qed.

(** X15: the report and the penalty gate agree: the status shown for the
    alert level is the one of the maximum exactly when an invocation made in
    this state sleeps its 20 seconds at the gate. *)
Theorem status_maximum_iff_penalty (others : list op) (w : world) :
  boss_status (boss_alert_level (st w)) = maximum_status
  <-> sleeps (trace (after_gate others w)) = sleeps (trace w) ++ [20].
Proof.
  rewrite after_gate_trace, sleeps_app. unfold boss_status.
  destruct (5 <=? boss_alert_level (st w)).
  - split; reflexivity.
  - rewrite app_nil_r. split.
    + destruct (3 <=? boss_alert_level (st w)); [discriminate |].
      destruct (1 <=? boss_alert_level (st w)); discriminate.
    + intros E. now apply sleeps_not_longer in E.
Qed.

(** ** Matching a request to a tool *)

Lemma prefix_spec (k s : string) :
  String.prefix k s = true <-> exists post, s = (k ++ post)%string.
Proof.
  revert k. induction s as [| c s IH]; intros [| a k]; simpl.
  - split; [exists ""; reflexivity | reflexivity].
  - split; [discriminate | intros [post E]; discriminate].
  - split; [exists (String c s); reflexivity | reflexivity].
  - destruct (ascii_dec a c) as [-> | Hne].
    + rewrite IH. split; intros [post E]; exists post.
      * now rewrite E.
      * now inversion E.
    + split; [discriminate | intros [post E]; inversion E; congruence].
Qed.

(** [contains] is the test for a substring. *)
Lemma contains_spec (k s : string) :
  contains k s = true <-> exists pre post, s = (pre ++ k ++ post)%string.
Proof.
  induction s as [| c s IH]; cbn [contains]; rewrite orb_true_iff, prefix_spec.
  - split.
    + intros [[post E] | F]; [| discriminate]. exists "", post. exact E.
    + intros (pre & post & E). left.
      destruct pre; [now exists post | discriminate].
  - rewrite IH. split.
    + intros [[post E] | (pre & post & E)].
      * exists "", post. exact E.
      * exists (String c pre), post. simpl. now rewrite E.
    + intros (pre & post & E). destruct pre as [| a pre].
      * left. now exists post.
      * right. exists pre, post. now inversion E.
Qed.

Lemma any_keyword_spec (keywords : list string) (input : string) :
  any_keyword keywords input = true
  <-> exists kw, In kw keywords /\ contains kw input = true.
Proof.
  induction keywords as [| kw rest IH]; simpl.
  - split; [discriminate | intros (kw & [] & _)].
  - destruct (contains kw input) eqn:E.
    + split; [intros _; exists kw; auto | reflexivity].
    + rewrite IH. split.
      * intros (k & Hin & Hc). exists k. auto.
      * intros (k & [<- | Hin] & Hc); [congruence | exists k; auto].
Qed.

(** The outer loop returns the first item with a keyword in the text. *)
Lemma first_match_spec (items : list (string * config)) (input : string)
    (m : string * Z * Z * string * list string) :
  first_match items input = Some m <->
  exists pre e post,
    items = pre ++ e :: post
    /\ m = entry_tuple e
    /\ any_keyword (cfg_keywords (snd e)) input = true
    /\ Forall (fun e' => any_keyword (cfg_keywords (snd e')) input = false)
         pre.
Proof.
  induction items as [| [name c] items IH]; simpl.
  - split; [discriminate |].
    intros (pre & e & post & E & _). destruct pre; discriminate.
  - destruct (any_keyword (cfg_keywords c) input) eqn:Ek.
    + split.
      * intros [= <-]. exists [], (name, c), items. repeat split; auto.
      * intros (pre & e & post & E & -> & He & Hpre).
        destruct pre as [| e0 pre]; simpl in E; inversion E; subst.
        -- reflexivity.
        -- inversion Hpre; subst. simpl in *. congruence.
    + rewrite IH. split.
      * intros (pre & e & post & -> & -> & He & Hpre).
        exists ((name, c) :: pre), e, post. repeat split; auto.
      * intros (pre & e & post & E & -> & He & Hpre).
        destruct pre as [| e0 pre]; simpl in E; inversion E; subst.
        -- simpl in He. congruence.
        -- inversion Hpre; subst. exists pre, e, post. repeat split; auto.
Qed.

Lemma first_match_none (items : list (string * config)) (input : string) :
  first_match items input = None <->
  Forall (fun e => any_keyword (cfg_keywords (snd e)) input = false) items.
Proof.
  induction items as [| [name c] items IH]; simpl.
  - split; [constructor | reflexivity].
  - destruct (any_keyword (cfg_keywords c) input) eqn:Ek.
    + split; [discriminate |]. intros H. inversion H; subst. simpl in *.
      congruence.
    + rewrite IH. split.
      * intros H. constructor; assumption.
      * intros H. now inversion H.
Qed.

(** The dictionary of [match_break_tool] and the eight tool functions carry
    the same profiles, in the same order. *)
Lemma tool_keywords_are_the_tools :
  map entry_tuple tool_keywords = map tuple_of break_tools.
Proof. reflexivity. Qed.

Lemma first_match_is_a_tool (input : string)
    (m : string * Z * Z * string * list string) :
  first_match tool_keywords input = Some m ->
  exists t, In t break_tools /\ m = tuple_of t.
Proof.
  intros H. apply first_match_spec in H
    as (pre & e & post & E & -> & _).
  assert (Hin : In (entry_tuple e) (map entry_tuple tool_keywords)).
  { apply in_map. rewrite E. apply in_or_app. right. now left. }
  rewrite tool_keywords_are_the_tools in Hin.
  apply in_map_iff in Hin as (t & Et & Hin). exists t. auto.
Qed.

(** X16: whatever the text and whatever [lower] does to it, a match is the
    profile of one of the eight tools, name, range, summary and messages: the
    dictionary inside [match_break_tool] and the tool functions do not
    disagree. *)
Theorem match_is_a_tool (lower : string -> string) (input : string)
    (m : string * Z * Z * string * list string) :
  match_break_tool lower input = Some m ->
  exists t, In t break_tools /\ m = tuple_of t
            /\ tool_min t <= tool_max t /\ tool_messages t <> [].
Proof.
  unfold match_break_tool. intros H.
  destruct (first_match_is_a_tool _ _ H) as (t & Hin & ->).
  exists t. repeat split; try assumption;
    pose proof break_tools_well_formed as Hwf;
    rewrite Forall_forall in Hwf; now destruct (Hwf t Hin).
Qed.

Lemma match_is_a_tool_witness :
  match_break_tool (fun s => s) "i need a coffee"
  = Some (tuple_of coffee_mission)
  /\ exists t, In t break_tools /\ tuple_of coffee_mission = tuple_of t
               /\ tool_min t <= tool_max t /\ tool_messages t <> [].
Proof.
  assert (H : match_break_tool (fun s => s) "i need a coffee"
              = Some (tuple_of coffee_mission)) by reflexivity.
  split; [exact H |].
  exact (match_is_a_tool (fun s => s) "i need a coffee" _ H).
Defined.

Lemma break_tools_ranges :
  Forall (fun t => 5 <= tool_min t /\ tool_max t <= 40) break_tools.
Proof. repeat constructor; simpl; lia. Qed.

(** X17: the interactive path does not raise on gauges within their bounds:
    the executor called with a match of [match_break_tool], as
    [run_interactive_mode] does, returns one ["text"] item on every such
    world, whatever operations with valid ranges the others run during a
    penalty. *)
Theorem matched_invocation_returns (lower : string -> string)
    (input : string) (m : string * Z * Z * string * list string)
    (others : list op) (w : world) :
  match_break_tool lower input = Some m ->
  gauges_bounded (st w) -> Forall valid_op others ->
  exists text, fst (execute_match others m w) = inr [mkContent "text" text].
Proof.
  unfold match_break_tool. intros H Hb Hv.
  destruct (first_match_is_a_tool _ _ H) as (t & Hin & ->).
  pose proof break_tools_well_formed as Hwf. rewrite Forall_forall in Hwf.
  pose proof break_tools_ranges as Hrg. rewrite Forall_forall in Hrg.
  destruct (well_formed_returns others t w Hb Hv (Hwf t Hin))
    as (text & _ & Hret & _); [destruct (Hrg t Hin); lia |].
  exists text. exact Hret.
Qed.

Lemma matched_invocation_returns_witness :
  match_break_tool (fun s => s) "netflix time"
  = Some (tuple_of watch_netflix)
  /\ gauges_bounded (st (sample_world 50 0 50 9))
  /\ Forall valid_op []
  /\ exists text,
       fst (execute_match [] (tuple_of watch_netflix)
              (sample_world 50 0 50 9))
       = inr [mkContent "text" text].
Proof.
  assert (H : match_break_tool (fun s => s) "netflix time"
              = Some (tuple_of watch_netflix)) by reflexivity.
  assert (Hb : gauges_bounded (st (sample_world 50 0 50 9))).
  { unfold gauges_bounded, stress_bounded, alert_bounded. simpl. lia. }
  split; [exact H |]. split; [exact Hb |]. split; [constructor |].
  exact (matched_invocation_returns (fun s => s) "netflix time" _ []
           (sample_world 50 0 50 9) H Hb (Forall_nil _)).
Defined.

(** X18: [match_break_tool] returns the first item of the dictionary, in the
    order it is written, one of whose keywords occurs in the lowered text,
    and [None] exactly when no keyword of any item occurs in it. *)
Theorem match_break_tool_first (lower : string -> string) (input : string) :
  (forall m,
      match_break_tool lower input = Some m <->
      exists pre e post,
        tool_keywords = pre ++ e :: post
        /\ m = entry_tuple e
        /\ (exists kw, In kw (cfg_keywords (snd e))
                       /\ occurs_in kw (lower input))
        /\ forall (e' : string * config) kw,
             In e' pre -> In kw (cfg_keywords (snd e')) ->
             ~ occurs_in kw (lower input))
  /\ (match_break_tool lower input = None <->
      forall (e : string * config) kw,
        In e tool_keywords -> In kw (cfg_keywords (snd e)) ->
        ~ occurs_in kw (lower input)).
Proof.
  assert (Hno : forall l,
             Forall (fun e => any_keyword (cfg_keywords (snd e)) (lower input)
                              = false) l
             <-> forall (e : string * config) kw,
                   In e l -> In kw (cfg_keywords (snd e)) ->
                   ~ occurs_in kw (lower input)).
  { intros l. rewrite Forall_forall. split.
    - intros H e kw He Hkw Hocc. apply contains_spec in Hocc.
      assert (Ht : any_keyword (cfg_keywords (snd e)) (lower input) = true).
      { apply any_keyword_spec. now exists kw. }
      rewrite (H e He) in Ht. discriminate.
    - intros H e He.
      destruct (any_keyword (cfg_keywords (snd e)) (lower input)) eqn:E;
        [| reflexivity].
      apply any_keyword_spec in E as (kw & Hkw & Hc).
      apply contains_spec in Hc. now destruct (H e kw He Hkw). }
  unfold match_break_tool. split.
  - intros m. rewrite first_match_spec. split.
    + intros (pre & e & post & E & Em & He & Hpre).
      exists pre, e, post. repeat split; try assumption.
      * apply any_keyword_spec in He as (kw & Hkw & Hc).
        exists kw. split; [exact Hkw | now apply contains_spec].
      * now apply Hno.
    + intros (pre & e & post & E & Em & (kw & Hkw & Hocc) & Hpre).
      exists pre, e, post. repeat split; try assumption.
      * apply any_keyword_spec. exists kw.
        split; [exact Hkw | now apply contains_spec].
      * now apply Hno.
  - rewrite first_match_none. apply Hno.
Qed.

(** X19: the keyword ["restroom"] of [bathroom_break] never decides: it
    holds ["rest"], a keyword of [take_a_break], which comes first in the
    dictionary, so a text whose lowered form holds ["restroom"] is matched to
    [take_a_break]. *)
Theorem restroom_is_a_rest (lower : string -> string) (input : string) :
  occurs_in "restroom" (lower input) ->
  (exists c, In ("bathroom_break", c) tool_keywords
             /\ In "restroom" (cfg_keywords c))
  /\ match_break_tool lower input = Some (tuple_of take_a_break).
Proof.
  intros (a & b & E).
  split; [eexists; split; [do 3 right; left; reflexivity | simpl; tauto] |].
  unfold match_break_tool. apply first_match_spec.
  exists []. eexists. eexists. split; [reflexivity |].
  split; [reflexivity |]. split; [| constructor].
  apply any_keyword_spec. exists "rest". split; [simpl; tauto |].
  apply contains_spec. exists a, ("room" ++ b)%string.
  rewrite E. reflexivity.
Qed.

Lemma restroom_is_a_rest_witness :
  occurs_in "restroom" "where is the restroom?"
  /\ match_break_tool (fun s => s) "where is the restroom?"
     = Some (tuple_of take_a_break).
Proof.
  assert (H : occurs_in "restroom" "where is the restroom?").
  { exists "where is the ", "?". reflexivity. }
  split; [exact H |].
  apply (restroom_is_a_rest (fun s => s) "where is the restroom?" H).
Defined.

(** ** Invocations among the others *)

Lemma after_gate_at_five (others : list op) (w : world) :
  5 <= boss_alert_level (st w) ->
  st (after_gate others w) = st (run_ops others (asleep w))
  /\ gen (after_gate others w) = gen (run_ops others (asleep w)).
Proof.
  intros H. unfold after_gate. rewrite penalty_run.
  destruct (Z.leb_spec 5 (boss_alert_level (st w))); [| lia].
  split; reflexivity.
Qed.

(** X20: a penalised invocation writes on the gauges it finds when it wakes
    up, not on those it was called with: with [wo] the world the others have
    left at the end of the sleep, the stress becomes [max 0 (s - r)] for the
    stress [s] of [wo] and the reduction [r] drawn where the tape then
    stands, and the roll is made on the alert level of [wo]. *)
Theorem penalised_invocation (others : list op) (name : string) (lo hi : Z)
    (summary : string) (msgs : list string) (w : world) :
  5 <= boss_alert_level (st w) -> lo <= hi ->
  let wo := run_ops others (asleep w) in
  let w' := snd (execute_break_tool others name lo hi summary msgs w) in
  let r := reduction_draw lo hi wo in
  lo <= r <= hi
  /\ stress_level (st w') = Z.max 0 (stress_level (st wo) - r)
  /\ boss_alert_level (st w') =
       (if (alert_draw (advance wo) <=? boss_alertness (st wo))
           && (boss_alert_level (st wo) <? 5)
        then boss_alert_level (st wo) + 1
        else boss_alert_level (st wo)).
Proof.
  intros H5 Hle wo w' r.
  destruct (execute_break_tool_trace others name lo hi summary msgs w Hle)
    as (Hst & _).
  fold w' in Hst. rewrite Hst. clear Hst.
  destruct (after_gate_at_five others w H5) as [Es Eg]. fold wo in Es, Eg.
  rewrite maybe_increase_boss_alert_run. simpl.
  rewrite (alert_fires_after_reduction lo hi _ Hle).
  rewrite (reduce_stress_run lo hi _ Hle). simpl.
  assert (Er : reduction_draw lo hi (after_gate others w) = r).
  { unfold r, reduction_draw, next_cell. now rewrite Eg. }
  assert (Ed : alert_draw (advance (after_gate others w))
               = alert_draw (advance wo)).
  { unfold alert_draw, advance, next_cell. simpl. now rewrite Eg. }
  rewrite Er, Ed, Es.
  destruct (randint_in_range lo hi wo Hle) as [_ Hr].
  split; [exact Hr |].
  destruct ((alert_draw (advance wo) <=? boss_alertness (st wo))
            && (boss_alert_level (st wo) <? 5)); simpl; auto.
Qed.

Lemma penalised_invocation_witness :
  5 <= boss_alert_level (st (sample_world 90 5 100 9))
  /\ 10 <= 30
  /\ stress_level
       (st (snd (run_tool [OpReduceStress 20 40; OpAlertTick] take_a_break
                   (sample_world 90 5 100 9)))) = 42
  /\ boss_alert_level
       (st (snd (run_tool [OpReduceStress 20 40; OpAlertTick] take_a_break
                   (sample_world 90 5 100 9)))) = 5.
Proof.
  split; [simpl; lia |]. split; [lia |].
  destruct (penalised_invocation [OpReduceStress 20 40; OpAlertTick]
              (tool_name take_a_break) 10 30 (tool_summary take_a_break)
              (tool_messages take_a_break) (sample_world 90 5 100 9))
    as (_ & Hs & Ha); [simpl; lia | lia |].
  split; [exact Hs | exact Ha].
Defined.

Lemma invocation_gauges_bounded (others : list op) (t : tool) (w : world) :
  valid_request (Invoke others t) ->
  gauges_bounded (st w) -> gauges_bounded (st (snd (run_tool others t w))).
Proof.
  intros [Hv Hlo] Hb.
  assert (H1 : gauges_bounded (st (after_gate others w))).
  { rewrite after_gate_st.
    destruct (5 <=? boss_alert_level (st w)); [| exact Hb].
    now apply run_ops_gauges_bounded. }
  unfold run_tool.
  destruct (Z.lt_ge_cases (tool_max t) (tool_min t)) as [Hlt | Hle].
  - now rewrite (execute_raises_value_error _ _ _ _ _ _ _ Hlt).
  - destruct (execute_break_tool_trace others (tool_name t) (tool_min t)
                (tool_max t) (tool_summary t) (tool_messages t) w Hle)
      as (Hst & _).
    rewrite Hst. clear Hst.
    set (w1 := after_gate others w) in *.
    pose proof (step_gauges_bounded
                  (OpReduceStress (tool_min t) (tool_max t)) w1
                  (conj (Hlo Hle) Hle) H1) as H2.
    unfold step, run_op, bind in H2.
    rewrite (reduce_stress_run _ _ w1 Hle) in H2 |- *. simpl in H2 |- *.
    match goal with
    | |- gauges_bounded (st (snd (maybe_increase_boss_alert ?w2))) =>
        pose proof (step_gauges_bounded OpAlertRoll w2 I H2) as H3;
        unfold step, run_op, bind in H3;
        rewrite (maybe_increase_boss_alert_run w2) in H3 |- *;
        exact H3
    end.
Qed.

(** X21: the gauges stay within their bounds over a whole run of the
    server: from the initial state, after each of any sequence of timer
    rounds and invocations, penalised or not, raising or not, with the others
    at work during the penalties, the stress is within [0..100] and the alert
    level within [0..5], provided every range that is not empty starts at 0 or
    above, as the ranges of the eight tools do. *)
Theorem served_gauges_bounded (alertness cooldown : Z) (g : rng)
    (reqs : list request) :
  Forall valid_request reqs ->
  Forall (fun w => 0 <= stress_level (st w) <= 100
                   /\ 0 <= boss_alert_level (st w) <= 5)
    (serve reqs (boot alertness cooldown g)).
Proof.
  intros Hv.
  assert (H : forall w, gauges_bounded (st w) ->
                        Forall (fun w' => gauges_bounded (st w'))
                          (serve reqs w)).
  { induction Hv as [| r reqs Hr _ IH]; intros w Hb; simpl; constructor.
    - destruct r as [o | others t]; simpl;
        [now apply step_gauges_bounded | now apply invocation_gauges_bounded].
    - apply IH.
      destruct r as [o | others t]; simpl;
        [now apply step_gauges_bounded | now apply invocation_gauges_bounded]. }
  apply (H _ (boot_gauges_bounded alertness cooldown g)).
Qed.

Lemma served_gauges_bounded_witness :
  Forall valid_request
    [Invoke [] watch_netflix; Timer OpStressTick;
     Invoke [OpAlertTick; OpReduceStress 5 20] urgent_call;
     Timer OpAlertTick; Invoke [] watch_netflix]
  /\ Forall (fun w => 0 <= stress_level (st w) <= 100
                      /\ 0 <= boss_alert_level (st w) <= 5)
       (serve [Invoke [] watch_netflix; Timer OpStressTick;
               Invoke [OpAlertTick; OpReduceStress 5 20] urgent_call;
               Timer OpAlertTick; Invoke [] watch_netflix]
          (boot 100 300 (constant_tape 20))).
Proof.
  assert (Hv : Forall valid_request
                 [Invoke [] watch_netflix; Timer OpStressTick;
                  Invoke [OpAlertTick; OpReduceStress 5 20] urgent_call;
                  Timer OpAlertTick; Invoke [] watch_netflix]).
  { repeat constructor; simpl; lia. }
  split; [exact Hv |].
  apply (served_gauges_bounded 100 300 (constant_tape 20) _ Hv).
Defined.

(** ** What the interpreter refuses *)

(** X22: an invocation with a range that is not empty and a message to
    choose returns exactly when the stress and the alert level after the roll
    have no more digits than the interpreter renders.  Otherwise [ValueError]
    is raised when the log line of step 6 is made, after the reduction, the
    roll and the snapshot: the gauges keep what these steps wrote, nothing is
    logged and nothing is returned. *)
Theorem execute_raises_iff_unrenderable (others : list op) (name : string)
    (lo hi : Z) (summary : string) (msgs : list string) (w : world) :
  lo <= hi -> msgs <> [] ->
  let w1 := after_gate others w in
  let w2 := snd (reduce_stress lo hi w1) in
  let w3 := snd (maybe_increase_boss_alert w2) in
  let out := execute_break_tool others name lo hi summary msgs w in
  st (snd out) = st w3
  /\ ((exists v, fst out = inr v) <->
      renderable (stress_level (st w3))
      /\ renderable (boss_alert_level (st w3)))
  /\ (fst out = inl ValueError <->
      ~ renderable (stress_level (st w3))
      \/ ~ renderable (boss_alert_level (st w3)))
  /\ (fst out = inl ValueError ->
      trace (snd out) =
        trace w3 ++ [EvGetState (stress_level (st w3))
                       (boss_alert_level (st w3))]).
Proof.
  intros Hle Hne w1 w2 w3 out.
  assert (Hdec : (renderable (stress_level (st w3))
                  /\ renderable (boss_alert_level (st w3)))
                 \/ (~ renderable (stress_level (st w3))
                     \/ ~ renderable (boss_alert_level (st w3)))).
  { unfold renderable. lia. }
  destruct Hdec as [[Hs Hb] | Hn].
  - destruct (execute_break_tool_run others name lo hi summary msgs w
                Hle Hne Hs Hb) as (msg & line & _ & E).
    unfold out. rewrite E. simpl. split; [reflexivity |].
    split; [split; [auto | intros _; eexists; reflexivity] |].
    split; [| discriminate].
    split; [discriminate | intros [H | H]; contradiction].
  - assert (E : out = (inl ValueError,
                       advance
                         (mkWorld (st w3) (gen w3)
                            (trace w3 ++ [EvGetState (stress_level (st w3))
                                            (boss_alert_level (st w3))])))).
    { unfold out.
      rewrite (execute_break_tool_unfold others name lo hi summary msgs w
                 Hle).
      fold w1 w2 w3.
      apply (finish_raises name summary msgs (alert_fires w2) _ _ _ Hne Hn). }
    rewrite E. simpl. split; [reflexivity |].
    split; [split; [intros [v Hv]; discriminate |
                    intros [Hs Hb]; destruct Hn; contradiction] |].
    split; [split; auto | reflexivity].
Qed.

Lemma execute_raises_iff_unrenderable_witness :
  10 <= 30
  /\ tool_messages take_a_break <> []
  /\ (exists v, fst (run_tool [] take_a_break (sample_world 50 0 50 9))
                = inr v)
  /\ renderable 31 /\ renderable 1.
Proof.
  split; [lia |]. split; [discriminate |].
  destruct (execute_raises_iff_unrenderable [] (tool_name take_a_break)
              10 30 (tool_summary take_a_break) (tool_messages take_a_break)
              (sample_world 50 0 50 9))
    as (_ & [_ Hret] & _); [lia | discriminate |].
  assert (Hr : renderable 31 /\ renderable 1).
  { unfold renderable. split; vm_compute; discriminate. }
  split; [exact (Hret Hr) | exact Hr].
Defined.

(** X23: a cooldown that no float holds stops the cooldown timer before its
    first round: [asyncio.sleep] raises [OverflowError], the task ends, and
    nothing has been slept or written.  [parse_arguments] accepts such a
    cooldown. *)
Theorem cooldown_overflow (during : list op) (rest : list (list op))
    (w : world) :
  float_overflow <= boss_alertness_cooldown (st w) ->
  _auto_decrease_boss_alert (during :: rest) w = (inl OverflowError, w)
  /\ forall alertness server,
       0 <= alertness <= 100 ->
       parse_arguments
         (mkArgv (Some alertness) (Some (boss_alertness_cooldown (st w)))
            server)
       = inr (mkArgs alertness (boss_alertness_cooldown (st w)) server).
Proof.
  intros Hc. split.
  - assert (E : _auto_decrease_boss_alert (during :: rest) w
                = (sleep (boss_alertness_cooldown (st w)) during ;;;
                   decrease_boss_alert_locked ;;;
                   _auto_decrease_boss_alert rest) w) by reflexivity.
    rewrite E. apply bind_raises. now apply sleep_overflows.
  - intros alertness server Ha. unfold parse_arguments. simpl.
    pose proof float_overflow_large as Hl.
    destruct (Z.leb_spec 0 alertness); [| lia].
    destruct (Z.leb_spec alertness 100); [| lia]. simpl.
    destruct (Z.leb_spec (boss_alertness_cooldown (st w)) 0);
      [lia | reflexivity].
Qed.

Lemma cooldown_overflow_witness :
  float_overflow
  <= boss_alertness_cooldown (st (mkWorld (mkAgent 50 3 50 (10 ^ 400))
                                    (constant_tape 0) []))
  /\ _auto_decrease_boss_alert [[]]
       (mkWorld (mkAgent 50 3 50 (10 ^ 400)) (constant_tape 0) [])
     = (inl OverflowError,
        mkWorld (mkAgent 50 3 50 (10 ^ 400)) (constant_tape 0) []).
Proof.
  assert (Hc : float_overflow
               <= boss_alertness_cooldown
                    (st (mkWorld (mkAgent 50 3 50 (10 ^ 400))
                           (constant_tape 0) []))).
  { apply Z.leb_le. vm_compute. reflexivity. }
  split; [exact Hc |].
  exact (proj1 (cooldown_overflow [] []
                  (mkWorld (mkAgent 50 3 50 (10 ^ 400)) (constant_tape 0) [])
                  Hc)).
Defined.
